(** * GPIO-Documents: serial sample acquisition

    A shallow embedding of the two acquisition programs of the repository,

    - [HZanalise.py]: the command-line sampling-rate monitor, whose main loop
      keeps a byte accumulator, frames it into 4-byte samples and keeps a
      sliding window of arrival times;
    - [analisesensordepeso.py]: the [RealTimePlot] window, whose timer
      callbacks read the serial port, fill two bounded deques, write a CSV
      file and rotate it.

    Python values are modelled as follows: [bytes]/[bytearray] as
    [list byte]; [int] as [Z]; [len] as [nat]; the floats read from
    [time.time()] as exact rationals [Q]; [datetime] values as a number of
    microseconds [Z]; [collections.deque(maxlen=n)] as a list with the
    eviction of [append] written out; exceptions as a result type. *)

From Stdlib Require Import Strings.String Strings.Byte.
From Stdlib Require Import List ZArith QArith Lia Bool DecimalString.
From Equations Require Import Equations.
Import ListNotations.

Set Implicit Arguments.

(** ** [struct.unpack('<i', b)] *)

Module Struct.

Local Open Scope Z_scope.

(** The unsigned value of a little-endian byte string. *)
Fixpoint le_unsigned (b : list byte) : Z :=
  match b with
  | [] => 0
  | x :: rest => Z.of_N (Byte.to_N x) + 256 * le_unsigned rest
  end.

(** [struct.unpack('<i', b)[0]]: raises [struct.error] ([None]) unless the
    buffer holds exactly 4 bytes; otherwise the two's-complement value. *)
Definition unpack_i (b : list byte) : option Z :=
  if negb (Nat.eqb (length b) 4) then None
  else let u := le_unsigned b in
       Some (if u <? 2 ^ 31 then u else u - 2 ^ 32).

(** The byte of value [n mod 256]. *)
Definition byte_of_Z (n : Z) : byte :=
  match Byte.of_N (Z.to_N (n mod 256)) with
  | Some x => x
  | None => x00
  end.

(** [struct.pack('<i', z)]: what the sending side puts on the wire. *)
Definition pack_i (z : Z) : list byte :=
  let u := z mod 2 ^ 32 in
  [byte_of_Z u; byte_of_Z (u / 2 ^ 8); byte_of_Z (u / 2 ^ 16);
   byte_of_Z (u / 2 ^ 24)].

End Struct.

(** ** [collections.deque(maxlen=n)] *)

Module Deque.

(** [d.append(x)] on a deque of bound [maxlen]: the item is added on the
    right, and when the size then exceeds the bound one item is removed on
    the left. *)
Definition append {A} (maxlen : nat) (d : list A) (x : A) : list A :=
  let d' := d ++ [x] in
  if Nat.ltb maxlen (length d') then tl d' else d'.

(** The last [n] items of a list, to say what a bounded deque holds. *)
Definition lastn {A} (n : nat) (l : list A) : list A :=
  skipn (length l - n) l.

End Deque.

(** ** HZanalise.py *)

Module HZanalise.

Definition SAMPLE_SIZE : nat := 4.
Definition window_size : nat := 1000.

(** What one turn of the inner [while] loop does with its 4-byte slice: a
    decoded value goes on to the counting code, a [struct.error] prints a
    message and [continue]s. *)
Inductive event : Type :=
| Decoded (value : Z)
| DecodeError.

Section Framer.

(** The decoder called on each slice; the program uses [Struct.unpack_i]. *)
Variable unpack : list byte -> option Z.

Definition decode (sample : list byte) : event :=
  match unpack sample with
  | Some value => Decoded value
  | None => DecodeError
  end.

(** The inner loop
<<
    while len(buffer) >= SAMPLE_SIZE:
        sample = buffer[:SAMPLE_SIZE]
        buffer = buffer[SAMPLE_SIZE:]
        try: value = struct.unpack('<i', sample)[0]
        except struct.error as e: print(...); continue
        ...
>>
    returning the events in order and the buffer left at loop exit. *)
Equations? frame (buffer : list byte) : list event * list byte
  by wf (length buffer) lt :=
  frame buffer with le_lt_dec SAMPLE_SIZE (length buffer) => {
    | left _ =>
        let sample := firstn SAMPLE_SIZE buffer in
        let r := frame (skipn SAMPLE_SIZE buffer) in
        (decode sample :: fst r, snd r)
    | right _ => ([], buffer) }.
Proof.
  unfold SAMPLE_SIZE in *.
  do 4 (destruct buffer as [| ? buffer]; simpl in *; try lia).
Qed.

(** One pass of the outer loop after [data = ser.read(...)]:
    [if data: buffer.extend(data)] followed by the inner loop. *)
Definition ingest (buffer data : list byte) : list event * list byte :=
  match data with
  | [] => ([], buffer)
  | _ :: _ => frame (buffer ++ data)
  end.

(** Successive reads, the accumulator carried from one to the next. *)
Fixpoint run (buffer : list byte) (chunks : list (list byte))
  : list event * list byte :=
  match chunks with
  | [] => ([], buffer)
  | data :: rest =>
      let r := ingest buffer data in
      let r' := run (snd r) rest in
      (fst r ++ fst r', snd r')
  end.

(** The accumulator after each of the successive reads. *)
Fixpoint leftovers (buffer : list byte) (chunks : list (list byte))
  : list (list byte) :=
  match chunks with
  | [] => []
  | data :: rest =>
      let b := snd (ingest buffer data) in
      b :: leftovers b rest
  end.

End Framer.

(** The values that reach [sample_count += 1]. *)
Fixpoint samples (evs : list event) : list Z :=
  match evs with
  | [] => []
  | Decoded v :: rest => v :: samples rest
  | DecodeError :: rest => samples rest
  end.

(** The framer of the program. *)
Definition main_frame := frame Struct.unpack_i.
Definition main_ingest := ingest Struct.unpack_i.
Definition main_run := run Struct.unpack_i.
Definition main_leftovers := leftovers Struct.unpack_i.

(** [time_window.append(current_time)] for each decoded sample in turn. *)
Definition record (time_window : list Q) (current_time : Q) : list Q :=
  Deque.append window_size time_window current_time.

Definition record_all (time_window : list Q) (times : list Q) : list Q :=
  fold_left record times time_window.

(** The rate shown by the periodic print:
<<
    if len(time_window) > 1:
        elapsed = time_window[-1] - time_window[0]
        rate = (len(time_window) - 1) / elapsed if elapsed > 0 else 0
        print(...)
>>
    [None] when the guard fails and nothing is computed or printed. *)
Definition rate (time_window : list Q) : option Q :=
  if Nat.ltb 1 (length time_window) then
    let elapsed := last time_window 0 - hd 0 time_window in
    Some (if Qlt_le_dec 0 elapsed
          then inject_Z (Z.of_nat (length time_window) - 1) / elapsed
          else 0)
  else None.

(** The counters of the main loop, and what the periodic print has shown:
    rate, total and last value. *)
Record counters : Type := mkCounters {
  sample_count : Z;
  time_window : list Q;
  last_print : Q;
  printed : list (Q * Z * Z)
}.

(** The rest of a turn of the inner loop, for a decoded [value], where
    [current_time] is what [time.time()] returns. *)
Definition on_sample (current_time : Q) (value : Z) (c : counters) : counters :=
  let count := (sample_count c + 1)%Z in
  let window := record (time_window c) current_time in
  if Qle_bool 1 (current_time - last_print c) then
    mkCounters count window current_time
      match rate window with
      | Some r => (r, count, value) :: printed c
      | None => printed c
      end
  else mkCounters count window (last_print c) (printed c).

(** The [finally] block of [main], on the port as it stands there: [None]
    when [serial.Serial] raised, else whether the port is open. *)
Definition main_finally (ser : option bool) : option bool :=
  match ser with
  | Some true => Some false
  | _ => ser
  end.

(** [n] arrival times [step] apart, from [t0] on. *)
Definition spaced (t0 step : Q) (n : nat) : list Q :=
  map (fun k => t0 + inject_Z (Z.of_nat k) * step) (seq 0 n).

(** A decoder that rejects one window, to run the loop through its
    [except] branch. *)
Definition rejecting (bad : list byte) (b : list byte) : option Z :=
  if list_eq_dec Byte.byte_eq_dec b bad then None else Struct.unpack_i b.

(** The samples decoded in one pass of the loop get the successive readings
    of the clock: [clock k] is what the [k]-th call of [time.time()] in the
    loop returns. *)
Fixpoint on_samples (clock : nat -> Q) (k : nat) (values : list Z)
  (c : counters) : counters :=
  match values with
  | [] => c
  | value :: rest => on_samples clock (S k) rest (on_sample (clock k) value c)
  end.

(** The variables of [main] that live across the passes of the outer loop:
    the accumulator, the counters, and how often the clock was read. *)
Record main_state : Type := mkMain {
  buffer : list byte;
  counts : counters;
  clock_reads : nat
}.

(** The variables as [main] sets them before the loop, [start_time] being
    the reading of the clock taken there. *)
Definition start (start_time : Q) : main_state :=
  mkMain [] (mkCounters 0 [] start_time []) 0.

(** One pass of the outer loop on what [ser.read] returned. *)
Definition turn (clock : nat -> Q) (data : list byte) (st : main_state)
  : main_state :=
  let r := main_ingest (buffer st) data in
  let values := samples (fst r) in
  mkMain (snd r)
         (on_samples clock (clock_reads st) values (counts st))
         (clock_reads st + length values).

(** Successive passes. *)
Definition turns (clock : nat -> Q) (chunks : list (list byte))
  (st : main_state) : main_state :=
  fold_left (fun s data => turn clock data s) chunks st.

End HZanalise.

(** ** analisesensordepeso.py *)

Module analisesensordepeso.

(** The exceptions the callbacks can meet. *)
Inductive exn : Type :=
| AttributeError
| OSError
| ValueError
| StructError
| SerialException.

(** The texts passed to [update_status] and [show_error]. *)
Inductive message : Type :=
| Initializing
| SerialConnected
| NewFileCreated (filename : Z)
| FilterRemoved
| SerialError (e : exn)
| InitError (e : exn)
| CsvCreateError (e : exn)
| CsvSaveError (e : exn)
| PlotUpdateError (e : exn).

(** A line handed to [csv_writer.writerow]. *)
Inductive row : Type :=
| Header
| DataRow (timestamp : Z) (value : Z).

(** A file object opened with [open(filename, 'w', newline='')].  Rows
    written go to the buffer of the file object ([pending]) and reach the
    disk ([persisted]) when the object is flushed: by [close], the only
    flush the program asks for, and by the io layer itself once the
    buffer is full (see [buffer_row]). *)
Record File : Type := mkFile {
  filename : Z;
  persisted : list row;
  pending : list row;
  closed : bool
}.

(** The serial port object: [input] is the driver's receive buffer, whose
    length is [in_waiting]. *)
Record Serial : Type := mkSerial {
  input : list byte;
  is_open : bool
}.

(** The window object together with the world it acts on: [files] are the
    file objects opened so far (a handle is a position in this list),
    [faults] scripts the outcome of the coming fallible system calls
    ([true]: the call raises; an exhausted script: no failure), [flushes]
    scripts how many buffered rows the io layer moves to the disk at the
    coming writes that fill a buffer.  An attribute that has not been
    assigned yet is [None]. *)
Record RealTimePlot : Type := mkRealTimePlot {
  start_time : Q;
  initial_delay : Q;
  ignore_initial_data : bool;
  buffer_size : nat;
  data : list Z;
  time_values : list nat;
  ser : option Serial;
  plot_timer : option bool;
  stats_timer : option bool;
  file_timer : option bool;
  csv_file : option nat;
  csv_writer : option nat;
  file_start_time : option Z;
  file_duration : Z;
  status : list message;
  dialogs : list message;
  plotted : list nat * list Z;
  files : list File;
  faults : list bool;
  flushes : list nat
}.

(** Assignment to one attribute. *)

Definition set_start_time (v : Q) (self : RealTimePlot) : RealTimePlot :=
  {| start_time := v; initial_delay := initial_delay self;
     ignore_initial_data := ignore_initial_data self;
     buffer_size := buffer_size self; data := data self;
     time_values := time_values self; ser := ser self;
     plot_timer := plot_timer self; stats_timer := stats_timer self;
     file_timer := file_timer self; csv_file := csv_file self;
     csv_writer := csv_writer self; file_start_time := file_start_time self;
     file_duration := file_duration self; status := status self;
     dialogs := dialogs self; plotted := plotted self; files := files self;
     faults := faults self; flushes := flushes self |}.

Definition set_initial_delay (v : Q) (self : RealTimePlot) : RealTimePlot :=
  {| start_time := start_time self; initial_delay := v;
     ignore_initial_data := ignore_initial_data self;
     buffer_size := buffer_size self; data := data self;
     time_values := time_values self; ser := ser self;
     plot_timer := plot_timer self; stats_timer := stats_timer self;
     file_timer := file_timer self; csv_file := csv_file self;
     csv_writer := csv_writer self; file_start_time := file_start_time self;
     file_duration := file_duration self; status := status self;
     dialogs := dialogs self; plotted := plotted self; files := files self;
     faults := faults self; flushes := flushes self |}.

Definition set_ignore_initial_data (v : bool) (self : RealTimePlot)
  : RealTimePlot :=
  {| start_time := start_time self; initial_delay := initial_delay self;
     ignore_initial_data := v; buffer_size := buffer_size self;
     data := data self; time_values := time_values self; ser := ser self;
     plot_timer := plot_timer self; stats_timer := stats_timer self;
     file_timer := file_timer self; csv_file := csv_file self;
     csv_writer := csv_writer self; file_start_time := file_start_time self;
     file_duration := file_duration self; status := status self;
     dialogs := dialogs self; plotted := plotted self; files := files self;
     faults := faults self; flushes := flushes self |}.

Definition set_buffer_size (v : nat) (self : RealTimePlot) : RealTimePlot :=
  {| start_time := start_time self; initial_delay := initial_delay self;
     ignore_initial_data := ignore_initial_data self; buffer_size := v;
     data := data self; time_values := time_values self; ser := ser self;
     plot_timer := plot_timer self; stats_timer := stats_timer self;
     file_timer := file_timer self; csv_file := csv_file self;
     csv_writer := csv_writer self; file_start_time := file_start_time self;
     file_duration := file_duration self; status := status self;
     dialogs := dialogs self; plotted := plotted self; files := files self;
     faults := faults self; flushes := flushes self |}.

Definition set_data (v : list Z) (self : RealTimePlot) : RealTimePlot :=
  {| start_time := start_time self; initial_delay := initial_delay self;
     ignore_initial_data := ignore_initial_data self;
     buffer_size := buffer_size self; data := v;
     time_values := time_values self; ser := ser self;
     plot_timer := plot_timer self; stats_timer := stats_timer self;
     file_timer := file_timer self; csv_file := csv_file self;
     csv_writer := csv_writer self; file_start_time := file_start_time self;
     file_duration := file_duration self; status := status self;
     dialogs := dialogs self; plotted := plotted self; files := files self;
     faults := faults self; flushes := flushes self |}.

Definition set_time_values (v : list nat) (self : RealTimePlot)
  : RealTimePlot :=
  {| start_time := start_time self; initial_delay := initial_delay self;
     ignore_initial_data := ignore_initial_data self;
     buffer_size := buffer_size self; data := data self; time_values := v;
     ser := ser self; plot_timer := plot_timer self;
     stats_timer := stats_timer self; file_timer := file_timer self;
     csv_file := csv_file self; csv_writer := csv_writer self;
     file_start_time := file_start_time self;
     file_duration := file_duration self; status := status self;
     dialogs := dialogs self; plotted := plotted self; files := files self;
     faults := faults self; flushes := flushes self |}.

Definition set_ser (v : option Serial) (self : RealTimePlot) : RealTimePlot :=
  {| start_time := start_time self; initial_delay := initial_delay self;
     ignore_initial_data := ignore_initial_data self;
     buffer_size := buffer_size self; data := data self;
     time_values := time_values self; ser := v;
     plot_timer := plot_timer self; stats_timer := stats_timer self;
     file_timer := file_timer self; csv_file := csv_file self;
     csv_writer := csv_writer self; file_start_time := file_start_time self;
     file_duration := file_duration self; status := status self;
     dialogs := dialogs self; plotted := plotted self; files := files self;
     faults := faults self; flushes := flushes self |}.

Definition set_plot_timer (v : option bool) (self : RealTimePlot)
  : RealTimePlot :=
  {| start_time := start_time self; initial_delay := initial_delay self;
     ignore_initial_data := ignore_initial_data self;
     buffer_size := buffer_size self; data := data self;
     time_values := time_values self; ser := ser self; plot_timer := v;
     stats_timer := stats_timer self; file_timer := file_timer self;
     csv_file := csv_file self; csv_writer := csv_writer self;
     file_start_time := file_start_time self;
     file_duration := file_duration self; status := status self;
     dialogs := dialogs self; plotted := plotted self; files := files self;
     faults := faults self; flushes := flushes self |}.

Definition set_stats_timer (v : option bool) (self : RealTimePlot)
  : RealTimePlot :=
  {| start_time := start_time self; initial_delay := initial_delay self;
     ignore_initial_data := ignore_initial_data self;
     buffer_size := buffer_size self; data := data self;
     time_values := time_values self; ser := ser self;
     plot_timer := plot_timer self; stats_timer := v;
     file_timer := file_timer self; csv_file := csv_file self;
     csv_writer := csv_writer self; file_start_time := file_start_time self;
     file_duration := file_duration self; status := status self;
     dialogs := dialogs self; plotted := plotted self; files := files self;
     faults := faults self; flushes := flushes self |}.

Definition set_file_timer (v : option bool) (self : RealTimePlot)
  : RealTimePlot :=
  {| start_time := start_time self; initial_delay := initial_delay self;
     ignore_initial_data := ignore_initial_data self;
     buffer_size := buffer_size self; data := data self;
     time_values := time_values self; ser := ser self;
     plot_timer := plot_timer self; stats_timer := stats_timer self;
     file_timer := v; csv_file := csv_file self;
     csv_writer := csv_writer self; file_start_time := file_start_time self;
     file_duration := file_duration self; status := status self;
     dialogs := dialogs self; plotted := plotted self; files := files self;
     faults := faults self; flushes := flushes self |}.

Definition set_csv_file (v : option nat) (self : RealTimePlot)
  : RealTimePlot :=
  {| start_time := start_time self; initial_delay := initial_delay self;
     ignore_initial_data := ignore_initial_data self;
     buffer_size := buffer_size self; data := data self;
     time_values := time_values self; ser := ser self;
     plot_timer := plot_timer self; stats_timer := stats_timer self;
     file_timer := file_timer self; csv_file := v;
     csv_writer := csv_writer self; file_start_time := file_start_time self;
     file_duration := file_duration self; status := status self;
     dialogs := dialogs self; plotted := plotted self; files := files self;
     faults := faults self; flushes := flushes self |}.

Definition set_csv_writer (v : option nat) (self : RealTimePlot)
  : RealTimePlot :=
  {| start_time := start_time self; initial_delay := initial_delay self;
     ignore_initial_data := ignore_initial_data self;
     buffer_size := buffer_size self; data := data self;
     time_values := time_values self; ser := ser self;
     plot_timer := plot_timer self; stats_timer := stats_timer self;
     file_timer := file_timer self; csv_file := csv_file self;
     csv_writer := v; file_start_time := file_start_time self;
     file_duration := file_duration self; status := status self;
     dialogs := dialogs self; plotted := plotted self; files := files self;
     faults := faults self; flushes := flushes self |}.

Definition set_file_start_time (v : option Z) (self : RealTimePlot)
  : RealTimePlot :=
  {| start_time := start_time self; initial_delay := initial_delay self;
     ignore_initial_data := ignore_initial_data self;
     buffer_size := buffer_size self; data := data self;
     time_values := time_values self; ser := ser self;
     plot_timer := plot_timer self; stats_timer := stats_timer self;
     file_timer := file_timer self; csv_file := csv_file self;
     csv_writer := csv_writer self; file_start_time := v;
     file_duration := file_duration self; status := status self;
     dialogs := dialogs self; plotted := plotted self; files := files self;
     faults := faults self; flushes := flushes self |}.

Definition set_file_duration (v : Z) (self : RealTimePlot) : RealTimePlot :=
  {| start_time := start_time self; initial_delay := initial_delay self;
     ignore_initial_data := ignore_initial_data self;
     buffer_size := buffer_size self; data := data self;
     time_values := time_values self; ser := ser self;
     plot_timer := plot_timer self; stats_timer := stats_timer self;
     file_timer := file_timer self; csv_file := csv_file self;
     csv_writer := csv_writer self; file_start_time := file_start_time self;
     file_duration := v; status := status self; dialogs := dialogs self;
     plotted := plotted self; files := files self; faults := faults self;
     flushes := flushes self |}.

Definition set_status (v : list message) (self : RealTimePlot)
  : RealTimePlot :=
  {| start_time := start_time self; initial_delay := initial_delay self;
     ignore_initial_data := ignore_initial_data self;
     buffer_size := buffer_size self; data := data self;
     time_values := time_values self; ser := ser self;
     plot_timer := plot_timer self; stats_timer := stats_timer self;
     file_timer := file_timer self; csv_file := csv_file self;
     csv_writer := csv_writer self; file_start_time := file_start_time self;
     file_duration := file_duration self; status := v;
     dialogs := dialogs self; plotted := plotted self; files := files self;
     faults := faults self; flushes := flushes self |}.

Definition set_dialogs (v : list message) (self : RealTimePlot)
  : RealTimePlot :=
  {| start_time := start_time self; initial_delay := initial_delay self;
     ignore_initial_data := ignore_initial_data self;
     buffer_size := buffer_size self; data := data self;
     time_values := time_values self; ser := ser self;
     plot_timer := plot_timer self; stats_timer := stats_timer self;
     file_timer := file_timer self; csv_file := csv_file self;
     csv_writer := csv_writer self; file_start_time := file_start_time self;
     file_duration := file_duration self; status := status self;
     dialogs := v; plotted := plotted self; files := files self;
     faults := faults self; flushes := flushes self |}.

Definition set_plotted (v : list nat * list Z) (self : RealTimePlot)
  : RealTimePlot :=
  {| start_time := start_time self; initial_delay := initial_delay self;
     ignore_initial_data := ignore_initial_data self;
     buffer_size := buffer_size self; data := data self;
     time_values := time_values self; ser := ser self;
     plot_timer := plot_timer self; stats_timer := stats_timer self;
     file_timer := file_timer self; csv_file := csv_file self;
     csv_writer := csv_writer self; file_start_time := file_start_time self;
     file_duration := file_duration self; status := status self;
     dialogs := dialogs self; plotted := v; files := files self;
     faults := faults self; flushes := flushes self |}.

Definition set_files (v : list File) (self : RealTimePlot) : RealTimePlot :=
  {| start_time := start_time self; initial_delay := initial_delay self;
     ignore_initial_data := ignore_initial_data self;
     buffer_size := buffer_size self; data := data self;
     time_values := time_values self; ser := ser self;
     plot_timer := plot_timer self; stats_timer := stats_timer self;
     file_timer := file_timer self; csv_file := csv_file self;
     csv_writer := csv_writer self; file_start_time := file_start_time self;
     file_duration := file_duration self; status := status self;
     dialogs := dialogs self; plotted := plotted self; files := v;
     faults := faults self; flushes := flushes self |}.

Definition set_faults (v : list bool) (self : RealTimePlot) : RealTimePlot :=
  {| start_time := start_time self; initial_delay := initial_delay self;
     ignore_initial_data := ignore_initial_data self;
     buffer_size := buffer_size self; data := data self;
     time_values := time_values self; ser := ser self;
     plot_timer := plot_timer self; stats_timer := stats_timer self;
     file_timer := file_timer self; csv_file := csv_file self;
     csv_writer := csv_writer self; file_start_time := file_start_time self;
     file_duration := file_duration self; status := status self;
     dialogs := dialogs self; plotted := plotted self; files := files self;
     faults := v; flushes := flushes self |}.

Definition set_flushes (v : list nat) (self : RealTimePlot) : RealTimePlot :=
  {| start_time := start_time self; initial_delay := initial_delay self;
     ignore_initial_data := ignore_initial_data self;
     buffer_size := buffer_size self; data := data self;
     time_values := time_values self; ser := ser self;
     plot_timer := plot_timer self; stats_timer := stats_timer self;
     file_timer := file_timer self; csv_file := csv_file self;
     csv_writer := csv_writer self; file_start_time := file_start_time self;
     file_duration := file_duration self; status := status self;
     dialogs := dialogs self; plotted := plotted self; files := files self;
     faults := faults self; flushes := v |}.

(** *** Exceptions and state *)

Inductive result (A : Type) : Type :=
| Ok (a : A)
| Raise (e : exn).
Arguments Ok {A} a.
Arguments Raise {A} e.

Definition M (A : Type) : Type := RealTimePlot -> result A * RealTimePlot.

Definition ret {A} (a : A) : M A := fun self => (Ok a, self).

Definition raise {A} (e : exn) : M A := fun self => (Raise e, self).

Definition bind {A B} (c : M A) (k : A -> M B) : M B :=
  fun self =>
    match c self with
    | (Ok a, self') => k a self'
    | (Raise e, self') => (Raise e, self')
    end.

(** [try: c except Exception as e: h e] *)
Definition try_except {A} (c : M A) (h : exn -> M A) : M A :=
  fun self =>
    match c self with
    | (Ok a, self') => (Ok a, self')
    | (Raise e, self') => h e self'
    end.

Definition get : M RealTimePlot := fun self => (Ok self, self).

Definition modify (f : RealTimePlot -> RealTimePlot) : M unit :=
  fun self => (Ok tt, f self).

Declare Scope py_scope.
Delimit Scope py_scope with py.
Notation "x <- c ;; k" := (bind c (fun x => k))
  (at level 61, c at next level, right associativity) : py_scope.
Notation "c ;; k" := (bind c (fun _ => k))
  (at level 61, right associativity) : py_scope.
Local Open Scope py_scope.

(** The state a callback leaves behind. *)
Definition exec {A} (c : M A) (self : RealTimePlot) : RealTimePlot :=
  snd (c self).

(** The next entry of the fault script. *)
Definition fault : M bool :=
  fun self => (Ok (hd false (faults self)), set_faults (tl (faults self)) self).

(** *** The status bar and the error dialog *)

Definition update_status (m : message) : M unit :=
  modify (fun self => set_status (m :: status self) self).

Definition show_error (m : message) : M unit :=
  modify (fun self => set_dialogs (m :: dialogs self) self) ;;
  update_status m.

(** *** File objects *)

Fixpoint list_update {A} (l : list A) (i : nat) (x : A) : list A :=
  match l, i with
  | [], _ => []
  | _ :: rest, O => x :: rest
  | y :: rest, S j => y :: list_update rest j x
  end.

(** Mode ['w'] empties what the disk holds under that name. *)
Definition truncate (name : Z) (f : File) : File :=
  if Z.eqb (filename f) name
  then mkFile (filename f) [] (pending f) (closed f)
  else f.

Definition open_w (name : Z) : M nat :=
  failed <- fault ;;
  if failed then raise OSError
  else
    self <- get ;;
    modify (set_files (map (truncate name) (files self)
                         ++ [mkFile name [] [] false])) ;;
    ret (length (files self)).

(** [f.close()]: flushes the buffer, then closes; closing again does
    nothing. *)
Definition file_close (h : nat) : M unit :=
  self <- get ;;
  match nth_error (files self) h with
  | None => raise ValueError
  | Some f =>
      if closed f then ret tt
      else
        failed <- fault ;;
        if failed then raise OSError
        else modify (set_files (list_update (files self) h
                       (mkFile (filename f) (persisted f ++ pending f) [] true)))
  end.

(** The bytes of a line of the file: ["timestamp,value"] or a time stamp
    of 26 characters, a comma and the decimal value, each followed by
    ["\r\n"]. *)
Definition row_size (r : row) : Z :=
  match r with
  | Header => 17
  | DataRow _ value =>
      29 + Z.of_nat (String.length (NilZero.string_of_int (Z.to_int value)))
  end.

Definition buffered_size (rows : list row) : Z :=
  fold_right (fun r n => row_size r + n)%Z 0%Z rows.

(** The text layer of a file object hands its buffer down once this many
    bytes are pending. *)
Definition chunk_size : Z := 8192.

(** The next entry of the flush script. *)
Definition io_flush : M nat :=
  fun self => (Ok (hd 0%nat (flushes self)),
               set_flushes (tl (flushes self)) self).

(** The file object after the line [r] went into its buffer: below
    [chunk_size] buffered bytes nothing reaches the disk; from there on
    the io layer moves the first [flushed] buffered lines to the disk,
    the number depending on the sizes of its buffers. *)
Definition buffer_row (flushed : nat) (f : File) (r : row) : File :=
  let buffered := pending f ++ [r] in
  if (chunk_size <=? buffered_size buffered)%Z
  then mkFile (filename f) (persisted f ++ firstn flushed buffered)
              (skipn flushed buffered) false
  else mkFile (filename f) (persisted f) buffered false.

(** [csv.writer(f).writerow(r)]: [ValueError] on a closed file. *)
Definition writerow (h : nat) (r : row) : M unit :=
  self <- get ;;
  match nth_error (files self) h with
  | None => raise ValueError
  | Some f =>
      if closed f then raise ValueError
      else
        failed <- fault ;;
        if failed then raise OSError
        else
          flushed <- io_flush ;;
          modify (set_files (list_update (files self) h
                               (buffer_row flushed f r)))
  end.

(** *** The serial port *)

Definition the_ser : M Serial :=
  self <- get ;;
  match ser self with
  | None => raise AttributeError
  | Some port => ret port
  end.

Definition ser_in_waiting : M nat :=
  port <- the_ser ;;
  if negb (is_open port) then raise SerialException
  else
    failed <- fault ;;
    if failed then raise SerialException else ret (length (input port)).

Definition ser_read (size : nat) : M (list byte) :=
  port <- the_ser ;;
  if negb (is_open port) then raise SerialException
  else
    failed <- fault ;;
    if failed then raise SerialException
    else
      modify (set_ser (Some (mkSerial (skipn size (input port)) true))) ;;
      ret (firstn size (input port)).

Definition ser_close : M unit :=
  port <- the_ser ;;
  failed <- fault ;;
  if failed then raise SerialException
  else modify (set_ser (Some (mkSerial [] false))).

(** Bytes reaching the driver between two callbacks. *)
Definition arrive (bytes : list byte) (self : RealTimePlot) : RealTimePlot :=
  match ser self with
  | Some port =>
      if is_open port
      then set_ser (Some (mkSerial (input port ++ bytes) true)) self
      else self
  | None => self
  end.

(** *** The CSV file *)

(** [strftime('%Y%m%d_%H%M%S')] of a clock reading in microseconds: the
    file name changes once per second. *)
Definition filename_of (now : Z) : Z := (now / 1000000)%Z.

(** [init_csv_file]; [now] is what [datetime.now()] returns during the
    call. *)
Definition init_csv_file (now : Z) : M unit :=
  try_except
    (self <- get ;;
     match csv_file self with
     | Some h => file_close h
     | None => ret tt
     end ;;
     h <- open_w (filename_of now) ;;
     modify (set_csv_file (Some h)) ;;
     modify (set_csv_writer (Some h)) ;;
     writerow h Header ;;
     modify (set_file_start_time (Some now)) ;;
     update_status (NewFileCreated (filename_of now)))
    (fun e => show_error (CsvCreateError e)).

(** [save_to_csv] *)
Definition save_to_csv (now : Z) (sample : Z) : M unit :=
  try_except
    (self <- get ;;
     match csv_writer self with
     | Some h => writerow h (DataRow now sample)
     | None => ret tt
     end)
    (fun e =>
       show_error (CsvSaveError e) ;;
       try_except
         (init_csv_file now)
         (fun _ => modify (set_csv_writer None))).

(** [check_file_rotation] *)
Definition check_file_rotation (now : Z) : M unit :=
  self <- get ;;
  if ignore_initial_data self then ret tt
  else
    try_except
      (match file_start_time self with
       | Some started =>
           if (file_duration self <=? now - started)%Z
           then init_csv_file now
           else ret tt
       | None => ret tt
       end)
      (fun _ => ret tt).

(** *** The display buffers *)

(** [self.data.append(sample); self.time_values.append(len(self.data))] *)
Definition push (buffer_size : nat) (window : list Z * list nat) (sample : Z)
  : list Z * list nat :=
  let data' := Deque.append buffer_size (fst window) sample in
  (data', Deque.append buffer_size (snd window) (length data')).

Definition push_all (buffer_size : nat) (window : list Z * list nat)
  (pushed : list Z) : list Z * list nat :=
  fold_left (push buffer_size) pushed window.

(** What the index deque has received after [m] pushes on empty deques:
    the length of the value deque after each push. *)
Definition index_axis (buffer_size m : nat) : list nat :=
  map (fun k => Nat.min k buffer_size) (seq 1 m).

(** *** [update_plot] *)

Definition slice {A} (l : list A) (i j : nat) : list A :=
  firstn (j - i) (skipn i l).

(** [range(0, stop, 4)] *)
Definition range4 (stop : nat) : list nat :=
  map (fun k => 4 * k)%nat (seq 0 ((stop + 3) / 4)).

Definition unpack (b : list byte) : M Z :=
  match Struct.unpack_i b with
  | Some v => ret v
  | None => raise StructError
  end.

(** The [for i in range(0, len(raw_data), 4)] loop over the indices left. *)
Fixpoint for_samples (now : Z) (raw_data : list byte) (indices : list nat)
  : M unit :=
  match indices with
  | [] => ret tt
  | i :: rest =>
      if Nat.ltb (length raw_data) (i + 4) then ret tt
      else
        sample <- unpack (slice raw_data i (i + 4)) ;;
        modify (fun self =>
                  let w := push (buffer_size self)
                                (data self, time_values self) sample in
                  set_time_values (snd w) (set_data (fst w) self)) ;;
        save_to_csv now sample ;;
        for_samples now raw_data rest
  end.

(** The part of [update_plot] under [if self.ignore_initial_data]; the
    result tells whether the callback goes on or [return]s. *)
Definition initial_filter (t : Q) : M bool :=
  self <- get ;;
  if ignore_initial_data self then
    let elapsed := t - start_time self in
    if Qle_bool (initial_delay self) elapsed then
      modify (set_ignore_initial_data false) ;;
      update_status FilterRemoved ;;
      ret true
    else
      n <- ser_in_waiting ;;
      (if Nat.leb 4 n
       then m <- ser_in_waiting ;; _ <- ser_read m ;; ret tt
       else ret tt) ;;
      ret false
  else ret true.

(** [update_plot]; [t] is [time.time()] and [now] is [datetime.now()]
    during the call. *)
Definition update_plot (t : Q) (now : Z) : M unit :=
  try_except
    (go_on <- initial_filter t ;;
     if go_on then
       self <- get ;;
       if negb (ignore_initial_data self) then
         n <- ser_in_waiting ;;
         if Nat.leb 4 n then
           m <- ser_in_waiting ;;
           raw_data <- ser_read m ;;
           for_samples now raw_data (range4 (length raw_data)) ;;
           modify (fun self => set_plotted (time_values self, data self) self)
         else ret tt
       else ret tt
     else ret tt)
    (fun e => update_status (PlotUpdateError e)).

(** *** Start and shutdown *)

Definition stop (timer : RealTimePlot -> option bool)
  (set : option bool -> RealTimePlot -> RealTimePlot) : M unit :=
  self <- get ;;
  match timer self with
  | None => raise AttributeError
  | Some _ => modify (set (Some false))
  end.

(** [closeEvent] *)
Definition closeEvent : M unit :=
  try_except
    (stop plot_timer set_plot_timer ;;
     stop stats_timer set_stats_timer ;;
     stop file_timer set_file_timer ;;
     self <- get ;;
     match ser self with
     | Some port => if is_open port then ser_close else ret tt
     | None => ret tt
     end ;;
     self <- get ;;
     match csv_file self with
     | Some h => file_close h
     | None => ret tt
     end)
    (fun _ => ret tt).

(** [setup_serial] *)
Definition setup_serial : M unit :=
  try_except
    (failed <- fault ;;
     if failed then raise SerialException
     else
       modify (set_ser (Some (mkSerial [] true))) ;;
       update_status SerialConnected)
    (fun e => show_error (SerialError e) ;; raise e).

(** [setup_timers] *)
Definition setup_timers : M unit :=
  modify (set_plot_timer (Some true)) ;;
  modify (set_stats_timer (Some true)) ;;
  modify (set_file_timer (Some true)).

(** The object before [__init__] has assigned anything, in a world with
    the given fault script. *)
Definition blank (script : list bool) : RealTimePlot :=
  mkRealTimePlot 0 0 true 0 [] [] None None None None None None None 0
                 [] [] ([], []) [] script [].

(** [setup_file_system] *)
Definition setup_file_system (now : Z) : M unit :=
  modify (set_csv_file None) ;;
  modify (set_csv_writer None) ;;
  modify (set_file_start_time None) ;;
  modify (set_file_duration (30 * 60 * 1000000)%Z) ;;
  init_csv_file now.

(** [__init__] (the widgets apart); [t] is [time.time()] and [now] is
    [datetime.now()] during the call. *)
Definition init (t : Q) (now : Z) : M unit :=
  modify (set_start_time t) ;;
  modify (set_initial_delay 3) ;;
  modify (set_ignore_initial_data true) ;;
  setup_file_system now ;;
  try_except
    (modify (set_buffer_size 2000) ;;
     modify (set_data []) ;;
     modify (set_time_values []) ;;
     setup_serial ;;
     setup_timers ;;
     update_status Initializing)
    (fun e => show_error (InitError e) ;; closeEvent).

(** *** Views of the state *)

(** What the plot side of the window consists of. *)
Definition display (self : RealTimePlot)
  : nat * list Z * list nat * (list nat * list Z) * option Serial * bool :=
  (buffer_size self, data self, time_values self, plotted self, ser self,
   ignore_initial_data self).

(** What the CSV side of the window consists of. *)
Definition sink (self : RealTimePlot)
  : option nat * option nat * option Z * list File :=
  (csv_file self, csv_writer self, file_start_time self, files self).

(** The two deques have the same length, within the buffer size. *)
Definition deques_in_step (self : RealTimePlot) : Prop :=
  length (data self) = length (time_values self)
  /\ (length (data self) <= buffer_size self)%nat.

(** Every file object that is still open is the one [csv_file] refers
    to. *)
Definition only_current_open (self : RealTimePlot) : Prop :=
  forall i f,
    nth_error (files self) i = Some f -> closed f = false ->
    csv_file self = Some i.

End analisesensordepeso.

(** ** Runs of the window used to exercise the callbacks *)

Module Scenario.

Import analisesensordepeso.

(** The window once [__init__] has run at time 0 with no failure. *)
Definition started : RealTimePlot := exec (init 0 0) (blank []).

(** The same window after the first [update_plot] past the initial delay,
    with nothing received yet. *)
Definition running : RealTimePlot := exec (update_plot 3 3000000) started.

(** Each chunk reaches the driver, then the plot timer fires (at time [t]
    and date [now]). *)
Definition deliver (t : Q) (now : Z) (chunks : list (list byte))
  (self : RealTimePlot) : RealTimePlot :=
  fold_left (fun s chunk => exec (update_plot t now) (arrive chunk s))
            chunks self.

End Scenario.

(** ** csvanalise.py *)

Module csvanalise.

(** [l.index(x)]: the first position of [x], [ValueError] ([None]) when
    [x] is not in the list. *)
Fixpoint index (l : list String.string) (x : String.string) : option nat :=
  match l with
  | [] => None
  | y :: rest =>
      if String.eqb y x then Some 0%nat
      else option_map S (index rest x)
  end.

(** [find_adjacent_files], where [csv_files] is the sorted listing
    [sorted(glob.glob(...))] of the folder of the current file; the outer
    [None] is the [ValueError] of [index]. *)
Definition find_adjacent_files (csv_files : list String.string)
  (current_file : String.string)
  : option (option String.string * option String.string) :=
  match csv_files with
  | [] => Some (None, None)
  | _ :: _ =>
      match index csv_files current_file with
      | None => None
      | Some current_index =>
          Some (if Nat.ltb 0 current_index
                then nth_error csv_files (current_index - 1)
                else None,
                if Nat.ltb current_index (length csv_files - 1)
                then nth_error csv_files (current_index + 1)
                else None)
      end
  end.

End csvanalise.

Module HZ := HZanalise.
Module RTP := analisesensordepeso.

Unset Implicit Arguments.

(** * The framing loop of HZanalise.py *)

Section FramerFacts.

Variable unpack : list byte -> option Z.

Lemma frame_short (buffer : list byte) :
  (length buffer < HZ.SAMPLE_SIZE)%nat -> HZ.frame unpack buffer = ([], buffer).
Proof.
  intros Hlen. rewrite HZ.frame_equation_1.
  destruct (le_lt_dec HZ.SAMPLE_SIZE (length buffer)) as [Hge | Hlt]; simpl.
  - lia.
  - reflexivity.
Qed.

Lemma frame_step (buffer : list byte) :
  (HZ.SAMPLE_SIZE <= length buffer)%nat ->
  HZ.frame unpack buffer =
  (HZ.decode unpack (firstn HZ.SAMPLE_SIZE buffer)
     :: fst (HZ.frame unpack (skipn HZ.SAMPLE_SIZE buffer)),
   snd (HZ.frame unpack (skipn HZ.SAMPLE_SIZE buffer))).
Proof.
  intros Hlen. rewrite HZ.frame_equation_1 at 1.
  destruct (le_lt_dec HZ.SAMPLE_SIZE (length buffer)) as [Hge | Hlt]; simpl.
  - reflexivity.
  - lia.
Qed.

(** Induction along the turns of the loop. *)
Lemma frame_ind (P : list byte -> Prop) :
  (forall b, (length b < HZ.SAMPLE_SIZE)%nat -> P b) ->
  (forall b, (HZ.SAMPLE_SIZE <= length b)%nat ->
             P (skipn HZ.SAMPLE_SIZE b) -> P b) ->
  forall b, P b.
Proof.
  intros Hshort Hstep b.
  remember (length b) as n eqn:Hn. revert b Hn.
  induction n as [n IH] using lt_wf_ind. intros b Hn.
  destruct (le_lt_dec HZ.SAMPLE_SIZE (length b)) as [Hge | Hlt].
  - apply Hstep; [exact Hge |].
    apply (IH (length (skipn HZ.SAMPLE_SIZE b))); [| reflexivity].
    rewrite length_skipn. unfold HZ.SAMPLE_SIZE in *. lia.
  - apply Hshort. exact Hlt.
Qed.

Lemma frame_leftover (buffer : list byte) :
  (length (snd (HZ.frame unpack buffer)) < HZ.SAMPLE_SIZE)%nat.
Proof.
  induction buffer as [b Hlt | b Hge IH] using frame_ind.
  - rewrite frame_short by exact Hlt. exact Hlt.
  - rewrite frame_step by exact Hge. exact IH.
Qed.

(** Framing a buffer to which more bytes are appended: the loop first does
    what it does on the buffer alone, then goes on from the leftover. *)
Lemma frame_app (x y : list byte) :
  HZ.frame unpack (x ++ y) =
  (fst (HZ.frame unpack x) ++ fst (HZ.frame unpack (snd (HZ.frame unpack x) ++ y)),
   snd (HZ.frame unpack (snd (HZ.frame unpack x) ++ y))).
Proof.
  induction x as [b Hlt | b Hge IH] using frame_ind.
  - rewrite (frame_short b Hlt). simpl. apply surjective_pairing.
  - assert (Hge' : (HZ.SAMPLE_SIZE <= length (b ++ y))%nat)
      by (rewrite length_app; lia).
    rewrite (frame_step _ Hge'), (frame_step _ Hge). cbn [fst snd].
    rewrite firstn_app, skipn_app.
    replace (HZ.SAMPLE_SIZE - length b)%nat with 0%nat by lia.
    rewrite firstn_0, skipn_O, app_nil_r, IH. reflexivity.
Qed.

Lemma ingest_frame (buffer data : list byte) :
  (length buffer < HZ.SAMPLE_SIZE)%nat ->
  HZ.ingest unpack buffer data = HZ.frame unpack (buffer ++ data).
Proof.
  intros Hlt. destruct data as [| d data]; simpl.
  - rewrite app_nil_r, frame_short by exact Hlt. reflexivity.
  - reflexivity.
Qed.

Lemma ingest_leftover (buffer data : list byte) :
  (length buffer < HZ.SAMPLE_SIZE)%nat ->
  (length (snd (HZ.ingest unpack buffer data)) < HZ.SAMPLE_SIZE)%nat.
Proof.
  intros Hlt. rewrite ingest_frame by exact Hlt. apply frame_leftover.
Qed.

(** Reading a stream in pieces frames it as reading it at once. *)
Lemma run_frame (chunks : list (list byte)) :
  forall buffer,
  (length buffer < HZ.SAMPLE_SIZE)%nat ->
  HZ.run unpack buffer chunks = HZ.frame unpack (buffer ++ concat chunks).
Proof.
  induction chunks as [| data rest IH]; intros buffer Hlt; simpl.
  - rewrite app_nil_r, frame_short by exact Hlt. reflexivity.
  - rewrite IH by (apply ingest_leftover; exact Hlt).
    rewrite ingest_frame by exact Hlt.
    rewrite app_assoc, (frame_app (buffer ++ data)).
    rewrite (frame_app (snd (HZ.frame unpack (buffer ++ data)))).
    rewrite (frame_short _ (frame_leftover (buffer ++ data))). simpl.
    reflexivity.
Qed.

Lemma leftovers_bounded (chunks : list (list byte)) :
  forall buffer,
  (length buffer < HZ.SAMPLE_SIZE)%nat ->
  Forall (fun b => (length b < HZ.SAMPLE_SIZE)%nat)
         (HZ.leftovers unpack buffer chunks).
Proof.
  induction chunks as [| data rest IH]; intros buffer Hlt; simpl.
  - constructor.
  - constructor.
    + apply ingest_leftover. exact Hlt.
    + apply IH. apply ingest_leftover. exact Hlt.
Qed.

(** A stream made of whole 4-byte windows is cut back into these windows,
    each decoded on its own, and nothing is left over. *)
Lemma frame_windows (windows : list (list byte)) :
  Forall (fun w => length w = HZ.SAMPLE_SIZE) windows ->
  HZ.frame unpack (concat windows) = (map (HZ.decode unpack) windows, []).
Proof.
  induction 1 as [| w rest Hw Hrest IH]; simpl.
  - apply frame_short. unfold HZ.SAMPLE_SIZE. simpl. lia.
  - rewrite frame_step by (rewrite length_app; lia).
    rewrite firstn_app, skipn_app, <- Hw, Nat.sub_diag.
    rewrite firstn_0, skipn_O, firstn_all, skipn_all, app_nil_r.
    rewrite app_nil_l, IH. reflexivity.
Qed.

End FramerFacts.

(** * The decoder *)

Lemma le_unsigned_range (b : list byte) :
  (0 <= Struct.le_unsigned b < 256 ^ Z.of_nat (length b))%Z.
Proof.
  induction b as [| x rest IH].
  - simpl. lia.
  - change (Struct.le_unsigned (x :: rest))
      with (Z.of_N (Byte.to_N x) + 256 * Struct.le_unsigned rest)%Z.
    replace (Z.of_nat (length (x :: rest))) with (Z.succ (Z.of_nat (length rest)))
      by (simpl length; lia).
    rewrite Z.pow_succ_r by lia.
    pose proof (Byte.to_N_bounded x) as Hx.
    lia.
Qed.

(** Every string of 4 bytes decodes, to a value of the signed 32-bit range. *)
Lemma unpack_i_total (b : list byte) :
  length b = 4%nat ->
  exists v, Struct.unpack_i b = Some v /\ (- 2 ^ 31 <= v < 2 ^ 31)%Z.
Proof.
  intros Hlen. unfold Struct.unpack_i. rewrite Hlen. simpl negb. cbv iota.
  pose proof (le_unsigned_range b) as Hr. rewrite Hlen in Hr.
  change (256 ^ Z.of_nat 4)%Z with (2 ^ 32)%Z in Hr.
  eexists. split; [reflexivity |].
  destruct (Z.ltb_spec (Struct.le_unsigned b) (2 ^ 31)); lia.
Qed.

Lemma unpack_i_length (b : list byte) (v : Z) :
  Struct.unpack_i b = Some v -> length b = 4%nat.
Proof.
  unfold Struct.unpack_i.
  destruct (Nat.eqb_spec (length b) 4) as [Heq | Hne]; simpl.
  - intros _. exact Heq.
  - discriminate.
Qed.

Lemma byte_of_Z_value (n : Z) :
  Z.of_N (Byte.to_N (Struct.byte_of_Z n)) = (n mod 256)%Z.
Proof.
  unfold Struct.byte_of_Z.
  pose proof (Z.mod_pos_bound n 256 ltac:(lia)) as Hm.
  destruct (Byte.of_N (Z.to_N (n mod 256))) as [x |] eqn:Hx.
  - apply Byte.to_of_N in Hx. rewrite Hx. lia.
  - apply Byte.of_N_None_iff in Hx. lia.
Qed.

Lemma le_unsigned_pack_i (z : Z) :
  Struct.le_unsigned (Struct.pack_i z) = (z mod 2 ^ 32)%Z.
Proof.
  unfold Struct.pack_i, Struct.le_unsigned.
  rewrite !byte_of_Z_value.
  pose proof (Z.mod_pos_bound z (2 ^ 32) ltac:(lia)) as Hu.
  generalize dependent (z mod 2 ^ 32)%Z. intros u Hu.
  change (2 ^ 8)%Z with 256%Z. change (2 ^ 16)%Z with 65536%Z.
  change (2 ^ 24)%Z with 16777216%Z. change (2 ^ 32)%Z with 4294967296%Z in Hu.
  Z.div_mod_to_equations. lia.
Qed.

(** Decoding undoes the encoding of a signed 32-bit integer. *)
Lemma unpack_pack_i (z : Z) :
  (- 2 ^ 31 <= z < 2 ^ 31)%Z -> Struct.unpack_i (Struct.pack_i z) = Some z.
Proof.
  intros Hz. unfold Struct.unpack_i.
  change (length (Struct.pack_i z)) with 4%nat. simpl negb. cbv iota.
  rewrite le_unsigned_pack_i. f_equal.
  change (2 ^ 31)%Z with 2147483648%Z in *.
  change (2 ^ 32)%Z with 4294967296%Z in *.
  destruct (Z.ltb_spec (z mod 4294967296) 2147483648);
    Z.div_mod_to_equations; lia.
Qed.

(** * Claims on the framer of HZanalise.py *)

(** With the decoder of the program every 4-byte slice decodes, so the
    loop never takes the [except struct.error] branch. *)
Lemma frame_no_error (unpack : list byte -> option Z) :
  (forall b, length b = HZ.SAMPLE_SIZE -> unpack b <> None) ->
  forall buffer, ~ In HZ.DecodeError (fst (HZ.frame unpack buffer)).
Proof.
  intros Htotal buffer.
  induction buffer as [b Hlt | b Hge IH] using frame_ind.
  - rewrite frame_short by exact Hlt. simpl. tauto.
  - rewrite frame_step by exact Hge. cbn [fst]. intros [Hhead | Htail].
    + unfold HZ.decode in Hhead.
      destruct (unpack (firstn HZ.SAMPLE_SIZE b)) as [v |] eqn:Hu.
      * discriminate.
      * apply (Htotal (firstn HZ.SAMPLE_SIZE b)); [| exact Hu].
        rewrite length_firstn. lia.
    + exact (IH Htail).
Qed.

Lemma main_run_no_error (chunks : list (list byte)) :
  forall buffer, ~ In HZ.DecodeError (fst (HZ.main_run buffer chunks)).
Proof.
  assert (Hframe : forall b, ~ In HZ.DecodeError (fst (HZ.main_frame b))).
  { apply frame_no_error. intros b Hb Hnone.
    destruct (unpack_i_total b Hb) as [v [Hv _]]. congruence. }
  induction chunks as [| data rest IH]; intros buffer; simpl.
  - tauto.
  - rewrite in_app_iff. intros [Hin | Hin].
    + destruct data as [| d data]; simpl in Hin.
      * exact Hin.
      * exact (Hframe _ Hin).
    + exact (IH _ Hin).
Qed.

(** C2: started on the empty [bytearray()], the accumulator holds between
    0 and 3 bytes after each read of any sequence of reads, and so at the
    end of the sequence. *)
Theorem accumulator_bounded (chunks : list (list byte)) :
  Forall (fun b => (0 <= length b <= 3)%nat) (HZ.main_leftovers [] chunks)
  /\ (0 <= length (snd (HZ.main_run [] chunks)) <= 3)%nat.
Proof.
  split.
  - assert (H := leftovers_bounded Struct.unpack_i chunks []).
    unfold HZ.main_leftovers. unfold HZ.SAMPLE_SIZE in H.
    eapply Forall_impl; [| apply H; simpl; lia].
    simpl. intros b Hb. lia.
  - unfold HZ.main_run. rewrite run_frame by (unfold HZ.SAMPLE_SIZE; simpl; lia).
    pose proof (frame_leftover Struct.unpack_i ([] ++ concat chunks)) as H.
    unfold HZ.SAMPLE_SIZE in H. lia.
Qed.

(** C10: every string of exactly 4 bytes decodes as a little-endian signed
    32-bit integer, and whatever the reads, the loop of the program never
    reaches its decode-error branch. *)
Theorem decode_error_unreachable :
  (forall b0 b1 b2 b3 : byte,
      exists v, Struct.unpack_i [b0; b1; b2; b3] = Some v
                /\ (- 2 ^ 31 <= v < 2 ^ 31)%Z)
  /\ (forall buffer chunks,
         ~ In HZ.DecodeError (fst (HZ.main_run buffer chunks))).
Proof.
  split.
  - intros b0 b1 b2 b3. apply unpack_i_total. reflexivity.
  - intros buffer chunks. apply main_run_no_error.
Qed.

Lemma samples_app (e1 e2 : list HZ.event) :
  HZ.samples (e1 ++ e2) = HZ.samples e1 ++ HZ.samples e2.
Proof.
  induction e1 as [| [v |] e1 IH]; simpl; rewrite ?IH; reflexivity.
Qed.

Lemma samples_decoded (unpack : list byte -> option Z)
  (windows : list (list byte)) (values : list Z) :
  map unpack windows = map Some values ->
  map (HZ.decode unpack) windows = map HZ.Decoded values
  /\ HZ.samples (map (HZ.decode unpack) windows) = values.
Proof.
  revert values. induction windows as [| w ws IH]; intros [| v vs] H;
    simpl in *; try discriminate.
  - split; reflexivity.
  - injection H as Hw Hws. destruct (IH vs Hws) as [IH1 IH2].
    unfold HZ.decode at 1 3. rewrite Hw, IH1. simpl.
    split; [reflexivity |]. rewrite <- IH1, IH2. reflexivity.
Qed.

(** C6: whatever decoder the loop calls, if it fails on one 4-byte window
    [bad] that stands between windows it decodes, then, however the stream
    is cut into reads, the loop yields the values of the windows before
    and after, in order and aligned, nothing for the bad window, and
    leaves no byte over; after the failure the loop goes on exactly 4 bytes
    further. *)
Theorem decode_failure_isolated
  (unpack : list byte -> option Z)
  (before after : list (list byte)) (bad : list byte)
  (values_before values_after : list Z) (chunks : list (list byte)) :
  Forall (fun w => length w = HZ.SAMPLE_SIZE) before ->
  Forall (fun w => length w = HZ.SAMPLE_SIZE) after ->
  length bad = HZ.SAMPLE_SIZE ->
  map unpack before = map Some values_before ->
  map unpack after = map Some values_after ->
  unpack bad = None ->
  concat chunks = concat before ++ bad ++ concat after ->
  HZ.run unpack [] chunks =
    (map HZ.Decoded values_before ++ HZ.DecodeError
       :: map HZ.Decoded values_after, [])
  /\ HZ.samples (fst (HZ.run unpack [] chunks)) = values_before ++ values_after
  /\ (forall rest,
        HZ.frame unpack (bad ++ rest) =
        (HZ.DecodeError :: fst (HZ.frame unpack rest),
         snd (HZ.frame unpack rest))).
Proof.
  intros Hb Ha Hbad Hvb Hva Hfail Hstream.
  destruct (samples_decoded unpack before values_before Hvb) as [Hdb Hsb].
  destruct (samples_decoded unpack after values_after Hva) as [Hda Hsa].
  assert (Hrun : HZ.run unpack [] chunks =
                 (map HZ.Decoded values_before ++ HZ.DecodeError
                    :: map HZ.Decoded values_after, [])).
  { rewrite run_frame by (unfold HZ.SAMPLE_SIZE; simpl; lia).
    rewrite app_nil_l, Hstream.
    replace (concat before ++ bad ++ concat after)
      with (concat (before ++ bad :: after))
      by (rewrite concat_app; reflexivity).
    rewrite frame_windows.
    - rewrite map_app. simpl map. rewrite Hdb, Hda.
      unfold HZ.decode. rewrite Hfail. reflexivity.
    - apply Forall_app. split; [exact Hb |]. constructor; assumption. }
  split; [exact Hrun |]. split.
  - rewrite Hrun. cbn [fst]. rewrite samples_app. simpl.
    rewrite <- Hdb, <- Hda, Hsb, Hsa. reflexivity.
  - intros rest.
    rewrite frame_step by (rewrite length_app; lia).
    rewrite firstn_app, skipn_app, <- Hbad, Nat.sub_diag.
    rewrite firstn_0, skipn_O, firstn_all, skipn_all, app_nil_r, app_nil_l.
    unfold HZ.decode. rewrite Hfail. reflexivity.
Qed.

Lemma decode_failure_isolated_witness :
  HZ.run (HZ.rejecting [xff; xff; xff; xff]) []
         [[x01; x00; x00]; [x00; xff; xff; xff; xff; x02]; [x00; x00; x00]]
  = ([HZ.Decoded 1; HZ.DecodeError; HZ.Decoded 2], []).
Proof.
  apply (decode_failure_isolated (HZ.rejecting [xff; xff; xff; xff])
           [[x01; x00; x00; x00]] [[x02; x00; x00; x00]] [xff; xff; xff; xff]
           [1%Z] [2%Z]).
  - repeat constructor.
  - repeat constructor.
  - reflexivity.
  - vm_compute. reflexivity.
  - vm_compute. reflexivity.
  - vm_compute. reflexivity.
  - reflexivity.
Defined.

(** The framer of HZanalise.py on a stream of encoded integers: however the
    stream is cut into reads, the loop yields these integers in order, as
    it does on the stream read at once. *)
Lemma framing_any_split (xs : list Z) (chunks : list (list byte)) :
  Forall (fun z => (- 2 ^ 31 <= z < 2 ^ 31)%Z) xs ->
  concat chunks = concat (map Struct.pack_i xs) ->
  HZ.main_run [] chunks = (map HZ.Decoded xs, [])
  /\ HZ.main_run [] chunks = HZ.main_ingest [] (concat chunks).
Proof.
  intros Hxs Hstream. unfold HZ.main_run, HZ.main_ingest.
  rewrite run_frame, ingest_frame by (unfold HZ.SAMPLE_SIZE; simpl; lia).
  split; [| reflexivity].
  rewrite app_nil_l, Hstream, frame_windows.
  - f_equal. rewrite map_map. apply map_ext_in. intros z Hz.
    unfold HZ.decode. rewrite unpack_pack_i; [reflexivity |].
    rewrite Forall_forall in Hxs. exact (Hxs z Hz).
  - apply Forall_map. apply Forall_forall. intros z _. reflexivity.
Qed.

(** * Bounded deques *)

Section DequeFacts.

Context {A : Type}.
Variable maxlen : nat.

Lemma lastn_length (l : list A) :
  length (Deque.lastn maxlen l) = Nat.min (length l) maxlen.
Proof. unfold Deque.lastn. rewrite length_skipn. lia. Qed.

Lemma lastn_short (l : list A) :
  (length l <= maxlen)%nat -> Deque.lastn maxlen l = l.
Proof.
  intros H. unfold Deque.lastn.
  replace (length l - maxlen)%nat with 0%nat by lia.
  reflexivity.
Qed.

Lemma lastn_lastn_app (a b : list A) :
  Deque.lastn maxlen (Deque.lastn maxlen a ++ b) = Deque.lastn maxlen (a ++ b).
Proof.
  unfold Deque.lastn at 1 3. rewrite !length_app, lastn_length.
  unfold Deque.lastn.
  set (k := (length a - maxlen)%nat).
  assert (Hk : (k <= length a)%nat) by (unfold k; lia).
  replace (skipn k a ++ b) with (skipn k (a ++ b)).
  - rewrite skipn_skipn. f_equal. unfold k. lia.
  - rewrite skipn_app. replace (k - length a)%nat with 0%nat by lia.
    reflexivity.
Qed.

Lemma append_lastn (d : list A) (x : A) :
  (length d <= maxlen)%nat ->
  Deque.append maxlen d x = Deque.lastn maxlen (d ++ [x]).
Proof.
  intros Hd. unfold Deque.append, Deque.lastn. rewrite length_app. simpl length.
  destruct (Nat.ltb_spec maxlen (length d + 1)) as [Hfull | Hroom].
  - replace (length d + 1 - maxlen)%nat with 1%nat by lia.
    destruct (d ++ [x]); reflexivity.
  - replace (length d + 1 - maxlen)%nat with 0%nat by lia. reflexivity.
Qed.

Lemma append_length (d : list A) (x : A) :
  (length d <= maxlen)%nat ->
  length (Deque.append maxlen d x) = Nat.min (length d + 1) maxlen.
Proof.
  intros Hd. rewrite append_lastn by exact Hd.
  rewrite lastn_length, length_app. reflexivity.
Qed.

(** Appending a sequence of items keeps the last [maxlen] of all. *)
Lemma fold_append (xs : list A) :
  forall d, (length d <= maxlen)%nat ->
  fold_left (Deque.append maxlen) xs d = Deque.lastn maxlen (d ++ xs).
Proof.
  induction xs as [| x xs IH]; intros d Hd; simpl.
  - rewrite app_nil_r. symmetry. apply lastn_short. exact Hd.
  - rewrite IH.
    + rewrite append_lastn by exact Hd. rewrite lastn_lastn_app.
      rewrite <- app_assoc. reflexivity.
    + rewrite append_length by exact Hd. lia.
Qed.

End DequeFacts.

(** * The rate window of HZanalise.py *)

Lemma record_all_lastn (times : list Q) :
  HZ.record_all [] times = Deque.lastn HZ.window_size times.
Proof.
  unfold HZ.record_all.
  exact (fold_append HZ.window_size times [] (Nat.le_0_l _)).
Qed.

Lemma spaced_last (t0 step : Q) (n : nat) :
  last (HZ.spaced t0 step (S n)) 0 = t0 + inject_Z (Z.of_nat n) * step.
Proof.
  unfold HZ.spaced. rewrite seq_S, map_app. simpl map. apply last_last.
Qed.

Lemma rate_spaced_1000 (t0 : Q) :
  exists r, HZ.rate (HZ.record_all [] (HZ.spaced t0 (1 # 10) 1000)) = Some r
            /\ r == 10.
Proof.
  rewrite record_all_lastn, lastn_short
    by (unfold HZ.spaced; rewrite length_map, length_seq; reflexivity).
  unfold HZ.rate.
  assert (Hlen : length (HZ.spaced t0 (1 # 10) 1000) = 1000%nat)
    by (unfold HZ.spaced; rewrite length_map, length_seq; reflexivity).
  rewrite Hlen. change (Nat.ltb 1 1000) with true. cbv iota.
  rewrite (spaced_last t0 (1 # 10) 999).
  change (hd 0 (HZ.spaced t0 (1 # 10) 1000))
    with (t0 + inject_Z (Z.of_nat 0) * (1 # 10)).
  assert (Hel : t0 + inject_Z (Z.of_nat 999) * (1 # 10)
                - (t0 + inject_Z (Z.of_nat 0) * (1 # 10)) == 999 # 10).
  { change (inject_Z (Z.of_nat 999)) with (999 # 1).
    change (inject_Z (Z.of_nat 0)) with (0 # 1). ring. }
  eexists. split; [reflexivity |].
  destruct (Qlt_le_dec 0 _) as [Hpos | Hneg].
  - rewrite Hel. reflexivity.
  - rewrite Hel in Hneg. exfalso. revert Hneg. apply Qlt_not_le. reflexivity.
Qed.

(** C3, as the code has it: the window is the last 1000 arrival times, in
    order of arrival; the rate is (count - 1) / (newest - oldest) when the
    window holds at least 2 entries and that difference is positive, 0
    when it holds at least 2 entries and the difference is not positive,
    and no rate is computed when it holds fewer than 2; 1000 arrival times
    100 ms apart give 10 Hz. *)
Theorem rate_window (times : list Q) (t0 : Q) :
  let window := HZ.record_all [] times in
  (length window <= 1000)%nat
  /\ window = skipn (length times - 1000) times
  /\ ((length window < 2)%nat -> HZ.rate window = None)
  /\ ((2 <= length window)%nat -> ~ 0 < last window 0 - hd 0 window ->
      HZ.rate window = Some 0)
  /\ ((2 <= length window)%nat -> 0 < last window 0 - hd 0 window ->
      HZ.rate window =
      Some (inject_Z (Z.of_nat (length window) - 1)
            / (last window 0 - hd 0 window)))
  /\ (exists r, HZ.rate (HZ.record_all [] (HZ.spaced t0 (1 # 10) 1000)) = Some r
                /\ r == 10).
Proof.
  intros window. subst window. rewrite record_all_lastn.
  split; [| split; [| split; [| split; [| split]]]].
  - rewrite lastn_length. unfold HZ.window_size. lia.
  - reflexivity.
  - intros Hlen. unfold HZ.rate.
    destruct (Nat.ltb_spec 1 (length (Deque.lastn HZ.window_size times))) as [H | H].
    + lia.
    + reflexivity.
  - intros Hlen Hel. unfold HZ.rate.
    destruct (Nat.ltb_spec 1 (length (Deque.lastn HZ.window_size times))) as [H | H].
    + destruct (Qlt_le_dec 0 _) as [Hpos | Hneg]; [contradiction | reflexivity].
    + lia.
  - intros Hlen Hel. unfold HZ.rate.
    destruct (Nat.ltb_spec 1 (length (Deque.lastn HZ.window_size times))) as [H | H].
    + destruct (Qlt_le_dec 0 _) as [Hpos | Hneg]; [reflexivity |].
      exfalso. revert Hneg. apply Qlt_not_le. exact Hel.
    + lia.
  - apply rate_spaced_1000.
Qed.

Lemma rate_window_witness :
  HZ.rate (HZ.record_all [] [0; 1 # 2; 1]) = Some (inject_Z 2 / (1 - 0)).
Proof.
  destruct (rate_window [0; 1 # 2; 1] 0) as (_ & _ & _ & _ & Hrate & _).
  apply Hrate.
  - vm_compute. lia.
  - vm_compute. reflexivity.
Defined.

(** C3 as stated fails where the window holds a single arrival time: the
    code computes no rate there, not the rate 0. *)
Lemma rate_single_entry_not_zero :
  ~ (exists r, HZ.rate (HZ.record_all [] [5]) = Some r /\ r == 0).
Proof.
  intros [r [H _]]. vm_compute in H. discriminate.
Qed.

(** * The display buffers of analisesensordepeso.py *)

Lemma push_all_snoc (cap : nat) (w : list Z * list nat) (xs : list Z) (y : Z) :
  RTP.push_all cap w (xs ++ [y]) = RTP.push cap (RTP.push_all cap w xs) y.
Proof. unfold RTP.push_all. rewrite fold_left_app. reflexivity. Qed.

Lemma index_axis_S (cap m : nat) :
  RTP.index_axis cap (S m) = RTP.index_axis cap m ++ [Nat.min (S m) cap].
Proof. unfold RTP.index_axis. rewrite seq_S, map_app. reflexivity. Qed.

(** Pushed on empty deques, a sequence of samples leaves its last
    [cap] values, and the last [cap] of the lengths the value deque went
    through. *)
Lemma push_all_empty (cap : nat) (xs : list Z) :
  RTP.push_all cap ([], []) xs =
  (Deque.lastn cap xs, Deque.lastn cap (RTP.index_axis cap (length xs))).
Proof.
  induction xs as [| y xs IH] using rev_ind.
  - reflexivity.
  - rewrite push_all_snoc, IH. unfold RTP.push. cbn [fst snd].
    assert (Hd : (length (Deque.lastn cap xs) <= cap)%nat)
      by (rewrite lastn_length; lia).
    assert (Hi : (length (Deque.lastn cap (RTP.index_axis cap (length xs)))
                  <= cap)%nat)
      by (rewrite lastn_length; lia).
    rewrite !append_lastn by assumption.
    rewrite !lastn_lastn_app. f_equal.
    rewrite lastn_length, !length_app. simpl length.
    replace (length xs + 1)%nat with (S (length xs)) by lia.
    rewrite index_axis_S. reflexivity.
Qed.

(** X10: after [cap + K] pushes on empty deques the value
    deque holds the last [cap] pushed values in order, and both deques hold
    [cap] entries. *)
Lemma rolling_values (cap K : nat) (xs : list Z) :
  length xs = (cap + K)%nat ->
  let w := RTP.push_all cap ([], []) xs in
  fst w = skipn K xs /\ length (fst w) = cap /\ length (snd w) = cap.
Proof.
  intros Hlen w. subst w. rewrite push_all_empty. cbn [fst snd].
  rewrite !lastn_length. unfold Deque.lastn at 1.
  unfold RTP.index_axis. rewrite length_map, length_seq, Hlen.
  repeat split; try lia. f_equal. lia.
Qed.

(** X11: after any number of pushes on empty deques the value deque and
    the index deque have the same length. *)
Lemma rolling_lockstep (cap : nat) (xs : list Z) :
  length (fst (RTP.push_all cap ([], []) xs))
  = length (snd (RTP.push_all cap ([], []) xs)).
Proof.
  rewrite push_all_empty. cbn [fst snd]. rewrite !lastn_length.
  unfold RTP.index_axis. rewrite length_map, length_seq. reflexivity.
Qed.

(** Once the value deque is full, every push enters the index [cap]. *)
Lemma index_axis_saturated (cap K : nat) (xs : list Z) :
  (1 <= cap)%nat -> length xs = (cap + K)%nat ->
  last (snd (RTP.push_all cap ([], []) xs)) 0%nat = cap.
Proof.
  intros Hcap Hlen. rewrite push_all_empty. cbn [snd]. rewrite Hlen.
  replace (cap + K)%nat with (S (cap + K - 1)) by lia.
  rewrite index_axis_S. unfold Deque.lastn.
  rewrite length_app. simpl length.
  rewrite skipn_app.
  set (n := (length (RTP.index_axis cap (cap + K - 1)) + 1 - cap)%nat).
  replace (n - length (RTP.index_axis cap (cap + K - 1)))%nat with 0%nat.
  - rewrite skipn_O, last_last. lia.
  - unfold n, RTP.index_axis. rewrite length_map, length_seq. lia.
Qed.

(** C5 at the buffer size of the program: pushing the 2001 values
    1, ..., 2001 leaves the values 2, ..., 2001, but the index deque ends
    with 2000 twice instead of holding 2, ..., 2001. *)
Theorem index_axis_repeats_at_capacity :
  let w := RTP.push_all 2000 ([], []) (map Z.of_nat (seq 1 2001)) in
  fst w = map Z.of_nat (seq 2 2000)
  /\ snd w = seq 2 1999 ++ [2000%nat]
  /\ snd w <> seq 2 2000.
Proof.
  assert (H : snd (RTP.push_all 2000 ([], []) (map Z.of_nat (seq 1 2001)))
              = seq 2 1999 ++ [2000%nat])
    by (vm_compute; reflexivity).
  intros w. subst w. split; [vm_compute; reflexivity |].
  split; [exact H |].
  rewrite H. intros Heq.
  apply (f_equal (fun l => last l 0%nat)) in Heq.
  vm_compute in Heq. discriminate Heq.
Qed.

(** * The callbacks of analisesensordepeso.py *)

Section PlotRuns.

Import analisesensordepeso Scenario.

(** C1 on [update_plot]: the 12 bytes of the samples 1, 2, 3 read at once
    give 1, 2, 3; read as 6 bytes and then 6 bytes they give 1 and 196608:
    each read throws away the bytes after its last whole group of 4, so
    the second read starts in the middle of a sample. *)
Theorem update_plot_drops_read_tail :
  let stream := Struct.pack_i 1 ++ Struct.pack_i 2 ++ Struct.pack_i 3 in
  data (deliver 4 4000000 [stream] running) = [1; 2; 3]%Z
  /\ data (deliver 4 4000000 [firstn 6 stream; skipn 6 stream] running)
     = [1; 196608]%Z
  /\ option_map input
       (ser (deliver 4 4000000 [firstn 6 stream; skipn 6 stream] running))
     = Some [].
Proof. vm_compute. repeat split; reflexivity. Qed.

(** C4 on [update_plot]: three bytes that arrive one second after the
    start are still in the driver after the callback has run during the
    initial delay, and once the delay is over they make up, with the first
    byte of the sample 1 that arrives then, the value 30194602. *)
Theorem settling_leaves_short_input :
  let s1 := exec (update_plot 1 1000000) (arrive [xaa; xbb; xcc] started) in
  let s2 := exec (update_plot 3 3000000) (arrive (Struct.pack_i 1) s1) in
  ignore_initial_data s1 = true
  /\ option_map input (ser s1) = Some [xaa; xbb; xcc]
  /\ data s1 = []
  /\ ignore_initial_data s2 = false
  /\ data s2 = [30194602]%Z.
Proof. vm_compute. repeat split; reflexivity. Qed.

(** C7 on [save_to_csv]: a write fails and the file cannot be opened
    again; the writer is still there, and the next write raises again,
    shows two more error dialogs and tries to open a file again. *)
Theorem sink_not_disabled_after_failed_recovery :
  let s0 := set_faults [true; false; true; true] running in
  let s1 := exec (save_to_csv 5 42) s0 in
  let s2 := exec (save_to_csv 6 43) s1 in
  csv_writer s1 = Some 0%nat
  /\ dialogs s1 = [CsvCreateError OSError; CsvSaveError OSError]
  /\ faults s1 = [true]
  /\ csv_writer s2 = Some 0%nat
  /\ dialogs s2 = [CsvCreateError OSError; CsvSaveError ValueError;
                   CsvCreateError OSError; CsvSaveError OSError]
  /\ faults s2 = [].
Proof. vm_compute. repeat split; reflexivity. Qed.

(** C9 on [closeEvent]: when the serial port cannot be opened, [__init__]
    closes the window, [closeEvent] stops at the timer that does not exist
    yet, and the CSV file stays open; when [ser.close()] raises at
    shutdown, the CSV file stays open as well. *)
Theorem close_event_leaves_csv_open :
  let s1 := exec (init 0 0) (blank [false; false; true]) in
  let s2 := exec closeEvent (set_faults [true] running) in
  csv_file s1 = Some 0%nat /\ map closed (files s1) = [false]
  /\ csv_file s2 = Some 0%nat /\ map closed (files s2) = [false]
  /\ option_map is_open (ser s2) = Some true
  /\ map closed (files (exec closeEvent running)) = [true].
Proof. vm_compute. repeat split; reflexivity. Qed.


End PlotRuns.

Section PlotFacts.

Import analisesensordepeso.
Local Open Scope py_scope.

Lemma list_update_length {A} (l : list A) (i : nat) (x : A) :
  length (list_update l i x) = length l.
Proof.
  revert i. induction l as [| y l IH]; intros [| i]; simpl; auto.
Qed.


Lemma list_update_last {A} (l : list A) (x y : A) :
  list_update (l ++ [x]) (length l) y = l ++ [y].
Proof. induction l as [| z l IH]; simpl; [| rewrite IH]; reflexivity. Qed.

Lemma nth_error_last {A} (l : list A) (x : A) :
  nth_error (l ++ [x]) (length l) = Some x.
Proof. induction l as [| z l IH]; simpl; auto. Qed.


(** Running a callback step by step. *)
Lemma bind_ok {A B} (c : M A) (k : A -> M B) (self self' : RealTimePlot) (a : A) :
  c self = (Ok a, self') -> bind c k self = k a self'.
Proof. intros H. unfold bind. rewrite H. reflexivity. Qed.

Lemma bind_raise {A B} (c : M A) (k : A -> M B) (self self' : RealTimePlot)
  (e : exn) :
  c self = (Raise e, self') -> bind c k self = (Raise e, self').
Proof. intros H. unfold bind. rewrite H. reflexivity. Qed.

Lemma try_ok {A} (c : M A) (h : exn -> M A) (self self' : RealTimePlot) (a : A) :
  c self = (Ok a, self') -> try_except c h self = (Ok a, self').
Proof. intros H. unfold try_except. rewrite H. reflexivity. Qed.

Lemma file_close_ok (h : nat) (f : File) (self : RealTimePlot) :
  nth_error (files self) h = Some f ->
  closed f = false ->
  hd false (faults self) = false ->
  file_close h self =
  (Ok tt,
   set_files (list_update (files self) h
                (mkFile (filename f) (persisted f ++ pending f) [] true))
             (set_faults (tl (faults self)) self)).
Proof.
  intros Hf Hopen Hcalm. unfold file_close, bind, get, fault.
  rewrite Hf, Hopen, Hcalm. reflexivity.
Qed.

Lemma open_w_ok (name : Z) (self : RealTimePlot) :
  hd false (faults self) = false ->
  open_w name self =
  (Ok (length (files self)),
   set_files (map (truncate name) (files self) ++ [mkFile name [] [] false])
             (set_faults (tl (faults self)) self)).
Proof.
  intros Hcalm. unfold open_w, bind, get, fault. rewrite Hcalm. reflexivity.
Qed.

Lemma writerow_ok (h : nat) (r : row) (f : File) (self : RealTimePlot) :
  nth_error (files self) h = Some f ->
  closed f = false ->
  hd false (faults self) = false ->
  writerow h r self =
  (Ok tt,
   set_files (list_update (files self) h
                (buffer_row (hd 0%nat (flushes self)) f r))
             (set_flushes (tl (flushes self))
                          (set_faults (tl (faults self)) self))).
Proof.
  intros Hf Hopen Hcalm. unfold writerow, bind, get, fault, io_flush.
  rewrite Hf, Hopen, Hcalm. reflexivity.
Qed.

(** The header of a new file stays in its buffer. *)
Lemma buffer_row_header (flushed : nat) (name : Z) :
  buffer_row flushed (mkFile name [] [] false) Header
  = mkFile name [] [Header] false.
Proof. reflexivity. Qed.


Lemma calm_script (script : list bool) :
  (forall k, (k < 3)%nat -> nth k script false = false) ->
  hd false script = false
  /\ hd false (tl script) = false
  /\ hd false (tl (tl script)) = false.
Proof.
  intros H.
  pose proof (H 0%nat ltac:(lia)) as H0.
  pose proof (H 1%nat ltac:(lia)) as H1.
  pose proof (H 2%nat ltac:(lia)) as H2.
  destruct script as [| b0 [| b1 [| b2 script]]]; simpl in *; auto.
Qed.


(** The serial calls touch the port and the fault script only. *)
Lemma ser_in_waiting_frame (self : RealTimePlot) :
  let s' := snd (ser_in_waiting self) in
  data s' = data self /\ time_values s' = time_values self
  /\ files s' = files self
  /\ ignore_initial_data s' = ignore_initial_data self.
Proof.
  unfold ser_in_waiting, the_ser, bind, get, fault, raise, ret.
  destruct (ser self) as [[inp [|]] |]; cbn; auto.
  destruct (hd false (faults self)); cbn; auto.
Qed.

Lemma ser_read_frame (size : nat) (self : RealTimePlot) :
  let s' := snd (ser_read size self) in
  data s' = data self /\ time_values s' = time_values self
  /\ files s' = files self
  /\ ignore_initial_data s' = ignore_initial_data self.
Proof.
  unfold ser_read, the_ser, bind, get, fault, raise, ret, modify.
  destruct (ser self) as [[inp [|]] |]; cbn; auto.
  destruct (hd false (faults self)); cbn; auto.
Qed.

(** X6: during the initial delay [update_plot] produces no sample and writes
    nothing, whatever is waiting in the driver and whether or not the
    serial calls fail. *)
Lemma settling_no_samples (self : RealTimePlot) (t : Q) (now : Z) :
  ignore_initial_data self = true ->
  Qle_bool (initial_delay self) (t - start_time self) = false ->
  let s' := exec (update_plot t now) self in
  data s' = data self /\ time_values s' = time_values self
  /\ files s' = files self /\ ignore_initial_data s' = true.
Proof.
  intros Hig Hdelay s'. subst s'.
  cbv beta iota delta [exec update_plot try_except bind initial_filter get].
  rewrite Hig. cbv beta iota zeta. rewrite Hdelay.
  pose proof (ser_in_waiting_frame self) as H1.
  destruct (ser_in_waiting self) as [[n | e1] s1]; cbn in H1;
    [| cbn; intuition congruence].
  destruct (Nat.leb 4 n); [| cbn; intuition congruence].
  pose proof (ser_in_waiting_frame s1) as H2.
  destruct (ser_in_waiting s1) as [[m | e2] s2]; cbn in H2;
    [| cbn; intuition congruence].
  pose proof (ser_read_frame m s2) as H3.
  destruct (ser_read m s2) as [[raw | e3] s3]; cbn in H3;
    cbn; intuition congruence.
Qed.

(** [init_csv_file] catches every exception itself. *)
Lemma init_csv_file_returns (now : Z) (self : RealTimePlot) :
  exists s', init_csv_file now self = (Ok tt, s').
Proof.
  unfold init_csv_file, try_except.
  match goal with |- context [match ?c self with _ => _ end] =>
    destruct (c self) as [[[] | e] s1] end.
  - eexists. reflexivity.
  - eexists. unfold show_error, update_status, bind, modify. reflexivity.
Qed.

(** So the handler of [save_to_csv] that would drop the writer never
    runs. *)
Lemma save_to_csv_recovery (now sample : Z) (self : RealTimePlot) :
  save_to_csv now sample self =
  try_except
    (self <- get ;;
     match csv_writer self with
     | Some h => writerow h (DataRow now sample)
     | None => ret tt
     end)
    (fun e => show_error (CsvSaveError e) ;; init_csv_file now) self.
Proof.
  unfold save_to_csv, try_except at 1 3.
  match goal with |- context [match ?c self with _ => _ end] =>
    destruct (c self) as [[[] | e] s1] end; [reflexivity |].
  unfold bind. destruct (show_error (CsvSaveError e) s1) as [[[] | e'] s2];
    [| reflexivity].
  unfold try_except.
  destruct (init_csv_file_returns now s2) as [s3 H3]. rewrite H3.
  reflexivity.
Qed.

(** The file calls leave the writer attribute alone. *)
Lemma file_close_writer (h : nat) (self : RealTimePlot) :
  csv_writer (snd (file_close h self)) = csv_writer self.
Proof.
  unfold file_close, bind, get, fault, raise, ret, modify.
  destruct (nth_error (files self) h) as [f |]; cbn; auto.
  destruct (closed f); cbn; auto.
  destruct (hd false (faults self)); cbn; auto.
Qed.

Lemma open_w_writer (name : Z) (self : RealTimePlot) :
  csv_writer (snd (open_w name self)) = csv_writer self.
Proof.
  unfold open_w, bind, get, fault, raise, ret, modify.
  destruct (hd false (faults self)); cbn; auto.
Qed.

Lemma writerow_writer (h : nat) (r : row) (self : RealTimePlot) :
  csv_writer (snd (writerow h r self)) = csv_writer self.
Proof.
  unfold writerow, bind, get, fault, raise, ret, modify.
  destruct (nth_error (files self) h) as [f |]; cbn; auto.
  destruct (closed f); cbn; auto.
  destruct (hd false (faults self)); cbn; auto.
Qed.

Lemma init_csv_file_writer (now : Z) (self : RealTimePlot) :
  csv_writer self <> None ->
  csv_writer (snd (init_csv_file now self)) <> None.
Proof.
  intros Hw.
  cbv beta iota delta [init_csv_file try_except bind get].
  assert (H1 : csv_writer
                 (snd (match csv_file self with
                       | Some h => file_close h
                       | None => ret tt
                       end self)) = csv_writer self).
  { destruct (csv_file self) as [h |]; [apply file_close_writer | reflexivity]. }
  destruct (match csv_file self with
            | Some h => file_close h
            | None => ret tt
            end self) as [[[] | e1] s1]; cbn in H1;
    [| cbn; congruence].
  pose proof (open_w_writer (filename_of now) s1) as H2.
  destruct (open_w (filename_of now) s1) as [[h | e2] s2]; cbn in H2;
    [| cbn; congruence].
  cbv beta iota delta [modify].
  pose proof (writerow_writer h Header
                (set_csv_writer (Some h) (set_csv_file (Some h) s2))) as H3.
  destruct (writerow h Header
              (set_csv_writer (Some h) (set_csv_file (Some h) s2)))
    as [[[] | e3] s3]; cbn in H3; cbn; congruence.
Qed.

(** X14: whatever fails, [save_to_csv] never drops the writer: the sink is not
    disabled. *)
Lemma save_to_csv_keeps_writer (now sample : Z) (self : RealTimePlot) :
  csv_writer self <> None ->
  csv_writer (exec (save_to_csv now sample) self) <> None.
Proof.
  intros Hw. unfold exec. rewrite save_to_csv_recovery.
  cbv beta iota delta [try_except bind get].
  destruct (csv_writer self) as [h |] eqn:Hh; [| congruence].
  pose proof (writerow_writer h (DataRow now sample) self) as H1.
  destruct (writerow h (DataRow now sample) self) as [[[] | e] s1];
    cbn in H1; [cbn; congruence |].
  cbv beta iota delta [show_error bind modify update_status].
  apply init_csv_file_writer. cbn. congruence.
Qed.

End PlotFacts.

Section Rotation.

Import analisesensordepeso Scenario.



End Rotation.

(** The [finally] block of HZanalise.py leaves no port open, on whichever
    path [main] is left. *)
Lemma main_finally_releases (ser : option bool) :
  HZ.main_finally ser <> Some true.
Proof. destruct ser as [[|] |]; simpl; discriminate. Qed.

(** * More on the loop of HZanalise.py *)

Section LoopFacts.

Variable unpack : list byte -> option Z.

Lemma frame_length_and_rest (buffer : list byte) :
  length (fst (HZ.frame unpack buffer)) = (length buffer / 4)%nat
  /\ snd (HZ.frame unpack buffer) = skipn (4 * (length buffer / 4)) buffer.
Proof.
  induction buffer as [b Hlt | b Hge IH] using frame_ind.
  - rewrite frame_short by exact Hlt. unfold HZ.SAMPLE_SIZE in Hlt.
    rewrite Nat.div_small by exact Hlt. simpl. split; reflexivity.
  - rewrite frame_step by exact Hge. unfold HZ.SAMPLE_SIZE in *.
    destruct IH as (IHlen & IHrest). cbn [fst snd length].
    assert (Hdiv : (length b / 4 = S (length (skipn 4 b) / 4))%nat).
    { rewrite length_skipn.
      pose proof (Nat.div_add_l 1 4 (length b - 4) ltac:(lia)) as Hd.
      replace (1 * 4 + (length b - 4))%nat with (length b) in Hd by lia.
      rewrite Hd. reflexivity. }
    rewrite Hdiv. split.
    + rewrite IHlen. reflexivity.
    + rewrite IHrest, skipn_skipn. f_equal. lia.
Qed.


(** X1: where the loop cuts: it takes [length buffer / 4] slices, the
    [i]-th being the bytes [4 i .. 4 i + 3], and leaves the bytes after
    them. *)
Theorem frame_cuts_every_four (buffer : list byte) :
  length (fst (HZ.frame unpack buffer)) = (length buffer / 4)%nat
  /\ snd (HZ.frame unpack buffer) = skipn (4 * (length buffer / 4)) buffer
  /\ (forall i, (i < length buffer / 4)%nat ->
        nth_error (fst (HZ.frame unpack buffer)) i
        = Some (HZ.decode unpack (firstn 4 (skipn (4 * i) buffer)))).
Proof.
  destruct (frame_length_and_rest buffer) as [Hlen Hrest].
  split; [exact Hlen |]. split; [exact Hrest |]. clear Hlen Hrest.
  induction buffer as [b Hlt | b Hge IH] using frame_ind.
  - unfold HZ.SAMPLE_SIZE in Hlt. rewrite Nat.div_small by exact Hlt.
    intros i Hi. lia.
  - rewrite frame_step by exact Hge. unfold HZ.SAMPLE_SIZE in *.
    cbn [fst].
    assert (Hdiv : (length b / 4 = S (length (skipn 4 b) / 4))%nat).
    { rewrite length_skipn.
      pose proof (Nat.div_add_l 1 4 (length b - 4) ltac:(lia)) as Hd.
      replace (1 * 4 + (length b - 4))%nat with (length b) in Hd by lia.
      rewrite Hd. reflexivity. }
    rewrite Hdiv. intros [| i] Hi.
    + reflexivity.
    + cbn [nth_error]. apply Nat.succ_lt_mono in Hi.
      rewrite IH by exact Hi. rewrite skipn_skipn.
      replace (4 * i + 4)%nat with (4 * S i)%nat by lia. reflexivity.
Qed.

(** X2: started on the empty accumulator, the loop frames a stream read in
    pieces exactly as it frames the stream read at once: the events and the
    leftover depend on the bytes only, not on where the reads cut them. *)
Theorem run_split_invariant (chunks chunks' : list (list byte)) :
  HZ.run unpack [] chunks = HZ.frame unpack (concat chunks)
  /\ (concat chunks = concat chunks' ->
      HZ.run unpack [] chunks = HZ.run unpack [] chunks').
Proof.
  assert (H : forall cs, HZ.run unpack [] cs = HZ.frame unpack (concat cs)).
  { intros cs. rewrite run_frame by (unfold HZ.SAMPLE_SIZE; simpl; lia).
    reflexivity. }
  split; [apply H |]. intros Heq. rewrite !H, Heq. reflexivity.
Qed.

End LoopFacts.

(** * The counters of HZanalise.py *)

Lemma on_samples_app (clock : nat -> Q) (a b : list Z) :
  forall k c,
  HZ.on_samples clock k (a ++ b) c
  = HZ.on_samples clock (k + length a) b (HZ.on_samples clock k a c).
Proof.
  induction a as [| v a IH]; intros k c; simpl.
  - rewrite Nat.add_0_r. reflexivity.
  - rewrite IH. f_equal. lia.
Qed.

Lemma on_sample_count (t : Q) (v : Z) (c : HZ.counters) :
  HZ.sample_count (HZ.on_sample t v c) = (HZ.sample_count c + 1)%Z.
Proof.
  unfold HZ.on_sample. destruct (Qle_bool 1 (t - HZ.last_print c)); reflexivity.
Qed.

Lemma on_sample_window (t : Q) (v : Z) (c : HZ.counters) :
  HZ.time_window (HZ.on_sample t v c) = HZ.record (HZ.time_window c) t.
Proof.
  unfold HZ.on_sample. destruct (Qle_bool 1 (t - HZ.last_print c)); reflexivity.
Qed.

Lemma on_samples_count (clock : nat -> Q) (values : list Z) :
  forall k c,
  HZ.sample_count (HZ.on_samples clock k values c)
  = (HZ.sample_count c + Z.of_nat (length values))%Z.
Proof.
  induction values as [| v values IH]; intros k c.
  - simpl. lia.
  - cbn [HZ.on_samples length]. rewrite IH, on_sample_count. lia.
Qed.

Lemma on_samples_window (clock : nat -> Q) (values : list Z) :
  forall k c,
  HZ.time_window (HZ.on_samples clock k values c)
  = HZ.record_all (HZ.time_window c) (map clock (seq k (length values))).
Proof.
  induction values as [| v values IH]; intros k c.
  - reflexivity.
  - cbn [HZ.on_samples length seq map]. rewrite IH, on_sample_window.
    reflexivity.
Qed.

Lemma samples_length (evs : list HZ.event) :
  ~ In HZ.DecodeError evs -> length (HZ.samples evs) = length evs.
Proof.
  induction evs as [| [v |] evs IH]; simpl; intros Hno.
  - reflexivity.
  - rewrite IH; [reflexivity | tauto].
  - exfalso. apply Hno. left. reflexivity.
Qed.

(** The passes of the outer loop, in terms of the framing of all reads. *)
Lemma turns_run (clock : nat -> Q) (chunks : list (list byte)) :
  forall st,
  (length (HZ.buffer st) < HZ.SAMPLE_SIZE)%nat ->
  HZ.turns clock chunks st =
  let r := HZ.main_run (HZ.buffer st) chunks in
  HZ.mkMain (snd r)
    (HZ.on_samples clock (HZ.clock_reads st) (HZ.samples (fst r)) (HZ.counts st))
    (HZ.clock_reads st + length (HZ.samples (fst r))).
Proof.
  induction chunks as [| data rest IH]; intros st Hlt.
  - destruct st as [b c k]. cbn. rewrite Nat.add_0_r. reflexivity.
  - change (HZ.turns clock (data :: rest) st)
      with (HZ.turns clock rest (HZ.turn clock data st)).
    rewrite IH by (apply ingest_leftover; exact Hlt).
    cbn [HZ.turn HZ.buffer HZ.counts HZ.clock_reads HZ.main_run HZ.run fst snd].
    unfold HZ.main_run, HZ.main_ingest.
    cbv zeta. cbn [fst snd].
    rewrite samples_app, on_samples_app, length_app, Nat.add_assoc.
    reflexivity.
Qed.

(** X3: whatever the reads, after them the loop has counted one sample per
    whole group of 4 bytes received, read the clock once per sample, kept
    the bytes after the last whole group, and its window holds the last
    1000 readings of the clock. *)
Theorem loop_counts_whole_groups
  (clock : nat -> Q) (start_time : Q) (chunks : list (list byte)) :
  let st := HZ.turns clock chunks (HZ.start start_time) in
  let n := (length (concat chunks) / 4)%nat in
  HZ.sample_count (HZ.counts st) = Z.of_nat n
  /\ HZ.clock_reads st = n
  /\ HZ.buffer st = skipn (4 * n) (concat chunks)
  /\ HZ.time_window (HZ.counts st) = Deque.lastn 1000 (map clock (seq 0 n)).
Proof.
  intros st n. subst st.
  rewrite turns_run by (unfold HZ.SAMPLE_SIZE; simpl; lia).
  cbn [HZ.start HZ.buffer HZ.counts HZ.clock_reads]. cbv zeta.
  cbn [HZ.buffer HZ.counts HZ.clock_reads].
  pose proof (main_run_no_error chunks []) as Hno.
  apply samples_length in Hno.
  unfold HZ.main_run in *.
  rewrite run_frame in * by (unfold HZ.SAMPLE_SIZE; simpl; lia).
  rewrite app_nil_l in *.
  destruct (frame_length_and_rest Struct.unpack_i (concat chunks))
    as (Hlen & Hrest).
  fold n in Hlen, Hrest. rewrite Hlen in Hno.
  rewrite on_samples_count, on_samples_window, Hno.
  cbn [HZ.sample_count HZ.time_window].
  repeat split.
  - exact Hrest.
  - apply record_all_lastn.
Qed.

(** X4: the rate shown is never negative, whatever the readings in the window,
    also when the clock has gone backwards. *)
Theorem rate_never_negative (time_window : list Q) (r : Q) :
  HZ.rate time_window = Some r -> 0 <= r.
Proof.
  unfold HZ.rate.
  destruct (Nat.ltb_spec 1 (length time_window)) as [Hlen | Hlen];
    [| discriminate].
  destruct (Qlt_le_dec 0 _) as [Hpos | Hneg]; intros H; injection H as <-.
  - apply Qle_shift_div_l; [exact Hpos |].
    rewrite Qmult_0_l. unfold Qle. simpl. lia.
  - apply Qle_refl.
Qed.

Lemma rate_never_negative_witness :
  0 <= inject_Z 2 / (1 - 0).
Proof.
  apply (rate_never_negative [0; 1 # 2; 1]). reflexivity.
Defined.

(** X5: after a print the loop stays silent for one second: samples whose
    clock readings are all less than one second after the last print,
    however many, print nothing and leave the time of the last print. *)
Theorem no_print_within_a_second
  (clock : nat -> Q) (values : list Z) (k : nat) (c : HZ.counters) :
  (forall j, (j < length values)%nat ->
             clock (k + j)%nat - HZ.last_print c < 1) ->
  HZ.printed (HZ.on_samples clock k values c) = HZ.printed c
  /\ HZ.last_print (HZ.on_samples clock k values c) = HZ.last_print c.
Proof.
  revert k c. induction values as [| v values IH]; intros k c Hsoon.
  - split; reflexivity.
  - cbn [HZ.on_samples].
    assert (Hstep : HZ.printed (HZ.on_sample (clock k) v c) = HZ.printed c
                    /\ HZ.last_print (HZ.on_sample (clock k) v c)
                       = HZ.last_print c).
    { unfold HZ.on_sample.
      destruct (Qle_bool 1 (clock k - HZ.last_print c)) eqn:Hle.
      - apply Qle_bool_iff in Hle. exfalso.
        specialize (Hsoon 0%nat ltac:(simpl; lia)).
        rewrite Nat.add_0_r in Hsoon.
        exact (Qlt_not_le _ _ Hsoon Hle).
      - split; reflexivity. }
    destruct Hstep as [Hp Hl].
    destruct (IH (S k) (HZ.on_sample (clock k) v c)) as [IHp IHl].
    + intros j Hj. rewrite Hl.
      replace (S k + j)%nat with (k + S j)%nat by lia.
      apply Hsoon. simpl. lia.
    + rewrite IHp, IHl, Hp, Hl. split; reflexivity.
Qed.

Lemma no_print_within_a_second_witness :
  HZ.printed (HZ.on_samples (fun k => inject_Z (Z.of_nat k) * (1 # 10)) 0
                [7%Z; 8%Z; 9%Z] (HZ.mkCounters 0 [] 0 []))
  = [].
Proof.
  apply (no_print_within_a_second
           (fun k => inject_Z (Z.of_nat k) * (1 # 10)) [7%Z; 8%Z; 9%Z] 0
           (HZ.mkCounters 0 [] 0 [])).
  intros [| [| [| j]]] Hj; [reflexivity | reflexivity | reflexivity |].
  simpl in Hj. lia.
Defined.

(** * More on the callbacks of analisesensordepeso.py *)

Section PlotMore.

Import analisesensordepeso Scenario.
Local Open Scope py_scope.

Lemma settling_no_samples_witness :
  data (exec (update_plot 1 1000000)
             (arrive (Struct.pack_i 5 ++ Struct.pack_i 6) started)) = [].
Proof.
  apply (settling_no_samples
           (arrive (Struct.pack_i 5 ++ Struct.pack_i 6) started) 1 1000000).
  - reflexivity.
  - reflexivity.
Defined.

Lemma rolling_values_witness :
  fst (push_all 3 ([], []) [10; 20; 30; 40; 50]%Z) = [30; 40; 50]%Z.
Proof.
  apply (rolling_values 3 2 [10; 20; 30; 40; 50]%Z). reflexivity.
Defined.

(** X12: until the value deque is full the index deque counts the samples:
    after [n <= buffer_size] pushes on empty deques the values are the
    pushed ones and the indices are 1, ..., n. *)
Theorem index_axis_counts_until_full (cap : nat) (xs : list Z) :
  (length xs <= cap)%nat ->
  push_all cap ([], []) xs = (xs, seq 1 (length xs)).
Proof.
  intros Hlen. rewrite push_all_empty.
  rewrite lastn_short by exact Hlen.
  assert (Haxis : index_axis cap (length xs) = seq 1 (length xs)).
  { unfold index_axis. rewrite <- (map_id (seq 1 (length xs))) at 2.
    apply map_ext_in. intros k Hk. apply in_seq in Hk. lia. }
  rewrite Haxis, lastn_short by (rewrite length_seq; exact Hlen).
  reflexivity.
Qed.

Lemma index_axis_counts_until_full_witness :
  push_all 3 ([], []) [10; 20; 30]%Z = ([10; 20; 30]%Z, [1; 2; 3]%nat).
Proof.
  apply (index_axis_counts_until_full 3 [10; 20; 30]%Z). simpl. lia.
Defined.

Lemma initial_filter_running (t : Q) (self : RealTimePlot) :
  ignore_initial_data self = false -> initial_filter t self = (Ok true, self).
Proof.
  intros Hrun. cbv beta iota delta [initial_filter bind get].
  rewrite Hrun. reflexivity.
Qed.

Lemma ser_in_waiting_open (self : RealTimePlot) (inp : list byte) :
  ser self = Some (mkSerial inp true) ->
  ser_in_waiting self =
  (if hd false (faults self) then Raise SerialException else Ok (length inp),
   set_faults (tl (faults self)) self).
Proof.
  intros Hser.
  cbv beta iota delta [ser_in_waiting the_ser bind get fault raise ret].
  rewrite Hser. cbn [is_open negb input].
  destruct (hd false (faults self)); reflexivity.
Qed.

(** X7: once running, [update_plot] leaves fewer than 4 waiting bytes in the
    driver and changes neither the display nor the CSV side, whether or
    not the serial call fails. *)
Theorem update_plot_waits_for_four_bytes
  (self : RealTimePlot) (t : Q) (now : Z) (inp : list byte) :
  ignore_initial_data self = false ->
  ser self = Some (mkSerial inp true) ->
  (length inp < 4)%nat ->
  display (exec (update_plot t now) self) = display self
  /\ sink (exec (update_plot t now) self) = sink self.
Proof.
  intros Hrun Hser Hlen. apply Nat.leb_gt in Hlen.
  unfold exec, update_plot, try_except.
  rewrite (bind_ok _ _ self self true (initial_filter_running t self Hrun)).
  cbv beta iota.
  rewrite (bind_ok get _ self self self eq_refl).
  rewrite Hrun. cbn [negb].
  pose proof (ser_in_waiting_open self inp Hser) as Hw.
  destruct (hd false (faults self)).
  - rewrite (bind_raise _ _ _ _ _ Hw). unfold display, sink. cbn.
    split; reflexivity.
  - rewrite (bind_ok _ _ _ _ _ Hw). rewrite Hlen. unfold display, sink. cbn.
    split; reflexivity.
Qed.

Lemma update_plot_waits_for_four_bytes_witness :
  display (exec (update_plot 4 4000000) (arrive [x01; x00; x00] running))
  = display (arrive [x01; x00; x00] running).
Proof.
  apply (update_plot_waits_for_four_bytes
           (arrive [x01; x00; x00] running) 4 4000000 [x01; x00; x00]).
  - reflexivity.
  - reflexivity.
  - simpl. lia.
Defined.

End PlotMore.

Section PlotDecoding.

Import analisesensordepeso Scenario.
Local Open Scope py_scope.

(** The file calls, [init_csv_file] and [save_to_csv] leave the display
    side alone, whatever fails. *)
Lemma file_close_display (h : nat) (self : RealTimePlot) :
  display (snd (file_close h self)) = display self.
Proof.
  unfold file_close, bind, get, fault, raise, ret, modify.
  destruct (nth_error (files self) h) as [f |]; cbn; auto.
  destruct (closed f); cbn; auto.
  destruct (hd false (faults self)); cbn; auto.
Qed.

Lemma open_w_display (name : Z) (self : RealTimePlot) :
  display (snd (open_w name self)) = display self.
Proof.
  unfold open_w, bind, get, fault, raise, ret, modify.
  destruct (hd false (faults self)); cbn; auto.
Qed.

Lemma writerow_display (h : nat) (r : row) (self : RealTimePlot) :
  display (snd (writerow h r self)) = display self.
Proof.
  unfold writerow, bind, get, fault, raise, ret, modify.
  destruct (nth_error (files self) h) as [f |]; cbn; auto.
  destruct (closed f); cbn; auto.
  destruct (hd false (faults self)); cbn; auto.
Qed.

Lemma init_csv_file_display (now : Z) (self : RealTimePlot) :
  display (snd (init_csv_file now self)) = display self.
Proof.
  cbv beta iota delta [init_csv_file try_except bind get].
  assert (H1 : display
                 (snd (match csv_file self with
                       | Some h => file_close h
                       | None => ret tt
                       end self)) = display self).
  { destruct (csv_file self) as [h |]; [apply file_close_display | reflexivity]. }
  destruct (match csv_file self with
            | Some h => file_close h
            | None => ret tt
            end self) as [[[] | e1] s1]; cbn [snd] in H1;
    [| unfold display in *; cbn in *; congruence].
  pose proof (open_w_display (filename_of now) s1) as H2.
  destruct (open_w (filename_of now) s1) as [[h | e2] s2]; cbn [snd] in H2;
    [| unfold display in *; cbn in *; congruence].
  cbv beta iota delta [modify].
  pose proof (writerow_display h Header
                (set_csv_writer (Some h) (set_csv_file (Some h) s2))) as H3.
  destruct (writerow h Header
              (set_csv_writer (Some h) (set_csv_file (Some h) s2)))
    as [[[] | e3] s3]; cbn [snd] in H3; unfold display in *; cbn in *;
    congruence.
Qed.

Lemma save_to_csv_display (now sample : Z) (self : RealTimePlot) :
  display (snd (save_to_csv now sample self)) = display self.
Proof.
  rewrite save_to_csv_recovery.
  cbv beta iota delta [try_except bind get].
  destruct (csv_writer self) as [h |]; [| reflexivity].
  pose proof (writerow_display h (DataRow now sample) self) as H1.
  destruct (writerow h (DataRow now sample) self) as [[[] | e] s1];
    cbn [snd] in H1; [exact H1 |].
  cbv beta iota delta [show_error bind modify update_status].
  rewrite init_csv_file_display. unfold display in *. cbn in *. exact H1.
Qed.

Lemma save_to_csv_returns (now sample : Z) (self : RealTimePlot) :
  fst (save_to_csv now sample self) = Ok tt.
Proof.
  rewrite save_to_csv_recovery.
  cbv beta iota delta [try_except bind get].
  destruct (csv_writer self) as [h |]; [| reflexivity].
  destruct (writerow h (DataRow now sample) self) as [[[] | e] s1];
    [reflexivity |].
  cbv beta iota delta [show_error bind modify update_status].
  match goal with |- fst (init_csv_file now ?s) = _ =>
    destruct (init_csv_file_returns now s) as [s3 H3]; rewrite H3 end.
  reflexivity.
Qed.

Lemma ser_read_open (size : nat) (self : RealTimePlot) (inp : list byte) :
  ser self = Some (mkSerial inp true) ->
  hd false (faults self) = false ->
  ser_read size self =
  (Ok (firstn size inp),
   set_ser (Some (mkSerial (skipn size inp) true))
           (set_faults (tl (faults self)) self)).
Proof.
  intros Hser Hcalm.
  cbv beta iota delta [ser_read the_ser bind get fault raise ret modify].
  rewrite Hser. cbn [is_open negb input]. rewrite Hcalm. reflexivity.
Qed.

(** The [for] loop from the index [4 j] on decodes what the loop of
    HZanalise.py frames from the same bytes, and pushes it on the
    deques. *)
Lemma for_samples_frame (now : Z) (raw : list byte) (m : nat) :
  forall (j : nat) (self : RealTimePlot),
  (length raw <= 4 * (j + m))%nat ->
  exists s',
    for_samples now raw (map (fun k => 4 * k)%nat (seq j m)) self = (Ok tt, s')
    /\ (data s', time_values s')
       = push_all (buffer_size self) (data self, time_values self)
           (HZ.samples (fst (HZ.main_frame (skipn (4 * j) raw))))
    /\ buffer_size s' = buffer_size self
    /\ ser s' = ser self
    /\ plotted s' = plotted self
    /\ ignore_initial_data s' = ignore_initial_data self.
Proof.
  induction m as [| m IH]; intros j self Hlen.
  - exists self. cbn [seq map for_samples].
    rewrite skipn_all2 by lia.
    unfold HZ.main_frame.
    rewrite frame_short by (unfold HZ.SAMPLE_SIZE; simpl; lia).
    repeat split; reflexivity.
  - cbn [seq map for_samples].
    destruct (Nat.ltb_spec (length raw) (4 * j + 4)) as [Hshort | Hlong].
    + exists self. unfold HZ.main_frame.
      rewrite frame_short
        by (rewrite length_skipn; unfold HZ.SAMPLE_SIZE; lia).
      repeat split; reflexivity.
    + assert (Hslice : slice raw (4 * j) (4 * j + 4)
                       = firstn HZ.SAMPLE_SIZE (skipn (4 * j) raw)).
      { unfold slice, HZ.SAMPLE_SIZE. f_equal. lia. }
      assert (Hge : (HZ.SAMPLE_SIZE <= length (skipn (4 * j) raw))%nat)
        by (rewrite length_skipn; unfold HZ.SAMPLE_SIZE; lia).
      destruct (unpack_i_total (firstn HZ.SAMPLE_SIZE (skipn (4 * j) raw)))
        as [v [Hv _]].
      { rewrite length_firstn. unfold HZ.SAMPLE_SIZE in *. lia. }
      unfold HZ.main_frame. rewrite (frame_step _ _ Hge).
      unfold HZ.decode. rewrite Hv. cbn [fst HZ.samples].
      rewrite skipn_skipn.
      replace (HZ.SAMPLE_SIZE + 4 * j)%nat with (4 * S j)%nat
        by (unfold HZ.SAMPLE_SIZE; lia).
      unfold bind at 1. unfold unpack. rewrite Hslice, Hv.
      cbv beta iota delta [ret]. unfold bind at 1.
      cbv beta iota delta [modify]. unfold bind at 1.
      set (s1 := set_time_values _ (set_data _ self)).
      pose proof (save_to_csv_returns now v s1) as Hret.
      pose proof (save_to_csv_display now v s1) as Hdisp.
      destruct (save_to_csv now v s1) as [r s2].
      cbn [fst snd] in Hret, Hdisp. subst r.
      destruct (IH (S j) s2 ltac:(lia))
        as (s' & Hrun & Hpush & Hbs & Hser & Hpl & Hig).
      exists s'. fold (HZ.main_frame (skipn (4 * S j) raw)) in Hpush.
      unfold display in Hdisp. subst s1. cbn in Hdisp.
      injection Hdisp as Hb2 Hd2 Ht2 Hp2 Hs2 Hi2.
      split; [exact Hrun |].
      split.
      { rewrite Hpush, Hb2, Hd2, Ht2. reflexivity. }
      repeat split; congruence.
Qed.

(** X8: once running, with at least 4 bytes waiting and the serial calls
    succeeding, [update_plot] empties the driver, pushes on the deques the
    samples that the loop of HZanalise.py frames from these bytes (the
    bytes after the last whole group of 4 are dropped), and plots the
    deques, whether or not the file calls fail. *)
Theorem update_plot_decodes_whole_groups
  (self : RealTimePlot) (t : Q) (now : Z) (inp : list byte) :
  ignore_initial_data self = false ->
  ser self = Some (mkSerial inp true) ->
  (4 <= length inp)%nat ->
  (forall k, (k < 3)%nat -> nth k (faults self) false = false) ->
  let s' := exec (update_plot t now) self in
  (data s', time_values s')
  = push_all (buffer_size self) (data self, time_values self)
      (HZ.samples (fst (HZ.main_frame inp)))
  /\ ser s' = Some (mkSerial [] true)
  /\ plotted s' = (time_values s', data s').
Proof.
  intros Hrun Hser Hlen Hcalm s'. subst s'.
  destruct (calm_script _ Hcalm) as (H0 & H1 & H2).
  apply Nat.leb_le in Hlen.
  unfold exec, update_plot, try_except.
  rewrite (bind_ok _ _ self self true (initial_filter_running t self Hrun)).
  cbv beta iota.
  rewrite (bind_ok get _ self self self eq_refl).
  rewrite Hrun. cbn [negb].
  pose proof (ser_in_waiting_open self inp Hser) as Hw. rewrite H0 in Hw.
  rewrite (bind_ok _ _ _ _ _ Hw). rewrite Hlen.
  set (sa := set_faults (tl (faults self)) self).
  assert (Hsera : ser sa = Some (mkSerial inp true)) by exact Hser.
  pose proof (ser_in_waiting_open sa inp Hsera) as Hw2.
  change (faults sa) with (tl (faults self)) in Hw2. rewrite H1 in Hw2.
  rewrite (bind_ok _ _ _ _ _ Hw2).
  set (sb := set_faults (tl (tl (faults self))) sa).
  assert (Hserb : ser sb = Some (mkSerial inp true)) by exact Hser.
  pose proof (ser_read_open (length inp) sb inp Hserb H2) as Hrd.
  rewrite (bind_ok _ _ _ _ _ Hrd).
  rewrite firstn_all, skipn_all.
  set (sc := set_ser _ _).
  unfold range4.
  destruct (for_samples_frame now inp ((length inp + 3) / 4) 0 sc)
    as (sd & Hfor & Hpush & Hbs & Hsd & Hpl & Hig).
  { pose proof (Nat.div_mod_eq (length inp + 3) 4) as Hdm.
    pose proof (Nat.mod_upper_bound (length inp + 3) 4 ltac:(lia)). lia. }
  rewrite (bind_ok _ _ _ _ _ Hfor).
  cbn [modify snd]. cbn [data time_values ser plotted set_plotted].
  rewrite Hpush, Hsd. split; [reflexivity |]. split; reflexivity.
Qed.

Lemma update_plot_decodes_whole_groups_witness :
  ser (exec (update_plot 4 4000000)
            (arrive [x01; x00; x00; x00; x02; x00] running))
  = Some (mkSerial [] true).
Proof.
  refine (proj1 (proj2 (update_plot_decodes_whole_groups
            (arrive [x01; x00; x00; x00; x02; x00] running) 4 4000000
            [x01; x00; x00; x00; x02; x00] _ _ _ _))).
  - reflexivity.
  - reflexivity.
  - simpl. lia.
  - intros [| [| [| k]]] _; reflexivity.
Defined.

End PlotDecoding.

Section PlotSink.

Import analisesensordepeso Scenario.
Local Open Scope py_scope.

Lemma try_except_returns (c : M unit) (h : exn -> M unit) (self : RealTimePlot) :
  (forall e s, fst (h e s) = Ok tt) -> fst (try_except c h self) = Ok tt.
Proof.
  intros Hh. unfold try_except.
  destruct (c self) as [[[] | e] s1]; [reflexivity | apply Hh].
Qed.

(** X13: no exception leaves a callback: each one catches what its body
    raises, and its handler does not raise. *)
Theorem callbacks_never_raise
  (self : RealTimePlot) (t : Q) (now sample : Z) :
  fst (update_plot t now self) = Ok tt
  /\ fst (save_to_csv now sample self) = Ok tt
  /\ fst (init_csv_file now self) = Ok tt
  /\ fst (check_file_rotation now self) = Ok tt
  /\ fst (closeEvent self) = Ok tt.
Proof.
  split; [| split; [| split; [| split]]].
  - apply try_except_returns. intros e s. reflexivity.
  - apply save_to_csv_returns.
  - destruct (init_csv_file_returns now self) as [s' H]. rewrite H.
    reflexivity.
  - cbv beta iota delta [check_file_rotation bind get].
    destruct (ignore_initial_data self); [reflexivity |].
    apply try_except_returns. intros e s. reflexivity.
  - apply try_except_returns. intros e s. reflexivity.
Qed.







End PlotSink.

Section PlotFiles.

Import analisesensordepeso Scenario.
Local Open Scope py_scope.

Lemma list_update_nth {A} (l : list A) (i : nat) (x y : A) :
  nth_error l i = Some y -> nth_error (list_update l i x) i = Some x.
Proof.
  revert i. induction l as [| z l IH]; intros [| i] H; simpl in *;
    try discriminate; auto.
Qed.

Lemma nth_error_map_app {A B} (g : A -> B) (l : list A) (tail : list B)
  (i : nat) (y : A) :
  nth_error l i = Some y -> nth_error (map g l ++ tail) i = Some (g y).
Proof.
  revert i. induction l as [| z l IH]; intros [| i] H; simpl in *;
    try discriminate; auto. congruence.
Qed.

(** [init_csv_file] on an open file when no call fails, whatever the
    names of the files. *)
Lemma init_csv_file_steps (self : RealTimePlot) (now : Z) (h : nat) (f : File) :
  csv_file self = Some h ->
  nth_error (files self) h = Some f ->
  closed f = false ->
  (forall k, (k < 3)%nat -> nth k (faults self) false = false) ->
  files (exec (init_csv_file now) self) =
    map (truncate (filename_of now))
        (list_update (files self) h
           (mkFile (filename f) (persisted f ++ pending f) [] true))
    ++ [mkFile (filename_of now) [] [Header] false].
Proof.
  intros Hcsv Hf Hopen Hcalm.
  destruct (calm_script _ Hcalm) as (H0 & H1 & H2).
  unfold exec, init_csv_file.
  erewrite try_ok.
  2:{ erewrite bind_ok by (unfold get; reflexivity).
      rewrite Hcsv.
      erewrite bind_ok by (apply (file_close_ok h f); assumption).
      erewrite bind_ok by (apply open_w_ok; exact H1).
      erewrite bind_ok by (unfold modify; reflexivity).
      erewrite bind_ok by (unfold modify; reflexivity).
      erewrite bind_ok.
      2:{ eapply writerow_ok.
          - cbn. rewrite <- (length_map (truncate (filename_of now))).
            apply nth_error_last.
          - reflexivity.
          - exact H2. }
      erewrite bind_ok by (unfold modify; reflexivity).
      unfold update_status, modify. reflexivity. }
  cbn. rewrite <- (length_map (truncate (filename_of now))).
  rewrite list_update_last. reflexivity.
Qed.

(** X16: a file created again within the second in which the open file was
    created gets the same name, and mode ['w'] empties it: after
    [init_csv_file] none of the rows written to the earlier file is on the
    disk. *)
Theorem recreation_in_same_second_empties_file
  (self : RealTimePlot) (now : Z) (h : nat) (f : File) :
  csv_file self = Some h ->
  nth_error (files self) h = Some f ->
  closed f = false ->
  filename f = filename_of now ->
  (forall k, (k < 3)%nat -> nth k (faults self) false = false) ->
  let s' := exec (init_csv_file now) self in
  nth_error (files s') h = Some (mkFile (filename_of now) [] [] true)
  /\ nth_error (files s') (length (files self))
     = Some (mkFile (filename_of now) [] [Header] false).
Proof.
  intros Hcsv Hf Hopen Hname Hcalm s'. subst s'.
  rewrite (init_csv_file_steps self now h f Hcsv Hf Hopen Hcalm).
  split.
  - erewrite nth_error_map_app
      by (eapply list_update_nth; exact Hf).
    unfold truncate. cbn [filename persisted pending closed].
    rewrite Hname, Z.eqb_refl. reflexivity.
  - rewrite <- (list_update_length (files self) h
                  (mkFile (filename f) (persisted f ++ pending f) [] true)).
    rewrite <- (length_map (truncate (filename_of now))).
    apply nth_error_last.
Qed.

Lemma recreation_in_same_second_empties_file_witness :
  nth_error (files (exec (init_csv_file 900000)
                         (exec (save_to_csv 5 42) running))) 0
  = Some (mkFile 0 [] [] true).
Proof.
  refine (proj1 (recreation_in_same_second_empties_file
                   (exec (save_to_csv 5 42) running) 900000 0%nat
                   (mkFile 0 [] [Header; DataRow 5 42] false) _ _ _ _ _)).
  - reflexivity.
  - reflexivity.
  - reflexivity.
  - reflexivity.
  - intros [| [| [| k]]] _; reflexivity.
Defined.

Lemma stop_ok (timer : RealTimePlot -> option bool)
  (set : option bool -> RealTimePlot -> RealTimePlot)
  (self : RealTimePlot) (running : bool) :
  timer self = Some running ->
  stop timer set self = (Ok tt, set (Some false) self).
Proof.
  intros H. unfold stop, bind, get. rewrite H. reflexivity.
Qed.

Lemma ser_close_ok (self : RealTimePlot) (port : Serial) :
  ser self = Some port ->
  hd false (faults self) = false ->
  ser_close self =
  (Ok tt, set_ser (Some (mkSerial [] false)) (set_faults (tl (faults self)) self)).
Proof.
  intros Hser Hcalm. unfold ser_close, the_ser, bind, get, fault, ret.
  rewrite Hser, Hcalm. reflexivity.
Qed.

(** X17: a shutdown in which nothing fails: [closeEvent] stops the three
    timers, closes the port, and closes the CSV file with every row
    written to it on the disk. *)
Theorem close_event_releases_all
  (self : RealTimePlot) (port : Serial) (h : nat) (f : File) (a b c : bool) :
  plot_timer self = Some a ->
  stats_timer self = Some b ->
  file_timer self = Some c ->
  ser self = Some port ->
  is_open port = true ->
  csv_file self = Some h ->
  nth_error (files self) h = Some f ->
  closed f = false ->
  (forall k, (k < 2)%nat -> nth k (faults self) false = false) ->
  let s' := exec closeEvent self in
  plot_timer s' = Some false /\ stats_timer s' = Some false
  /\ file_timer s' = Some false
  /\ ser s' = Some (mkSerial [] false)
  /\ files s' =
       list_update (files self) h
         (mkFile (filename f) (persisted f ++ pending f) [] true).
Proof.
  intros Hp Hs Hft Hser Hopen Hcsv Hf Hfopen Hcalm s'. subst s'.
  pose proof (Hcalm 0%nat ltac:(lia)) as H0.
  pose proof (Hcalm 1%nat ltac:(lia)) as H1.
  assert (H0' : hd false (faults self) = false)
    by (destruct (faults self); [reflexivity | exact H0]).
  assert (H1' : hd false (tl (faults self)) = false)
    by (destruct (faults self) as [| ? [| ? ?]]; try reflexivity; exact H1).
  unfold exec, closeEvent.
  erewrite try_ok.
  2:{ erewrite bind_ok by (eapply stop_ok; exact Hp).
      erewrite bind_ok by (eapply stop_ok; exact Hs).
      erewrite bind_ok by (eapply stop_ok; exact Hft).
      erewrite bind_ok by (unfold get; reflexivity).
      cbn [ser set_plot_timer set_stats_timer set_file_timer].
      rewrite Hser, Hopen.
      erewrite bind_ok by (eapply ser_close_ok; [exact Hser | exact H0']).
      erewrite bind_ok by (unfold get; reflexivity).
      cbn [csv_file set_plot_timer set_stats_timer set_file_timer set_ser
           set_faults].
      rewrite Hcsv.
      eapply (file_close_ok h f); [exact Hf | exact Hfopen | exact H1']. }
  cbn. repeat split; reflexivity.
Qed.

Lemma close_event_releases_all_witness :
  files (exec closeEvent (exec (save_to_csv 5 42) running))
  = [mkFile 0 [Header; DataRow 5 42] [] true].
Proof.
  refine (proj2 (proj2 (proj2 (proj2 (close_event_releases_all
            (exec (save_to_csv 5 42) running) (mkSerial [] true) 0%nat
            (mkFile 0 [] [Header; DataRow 5 42] false) true true true
            _ _ _ _ _ _ _ _ _))))).
  - reflexivity.
  - reflexivity.
  - reflexivity.
  - reflexivity.
  - reflexivity.
  - reflexivity.
  - reflexivity.
  - reflexivity.
  - intros [| [| k]] _; reflexivity.
Defined.

End PlotFiles.

Section NoWriter.

Import analisesensordepeso Scenario.
Local Open Scope py_scope.

Variable self0 : RealTimePlot.
Hypothesis no_writer : csv_writer self0 = None.

Lemma bind_keeps_sink {A B} (c : M A) (k : A -> M B) (self : RealTimePlot) :
  sink self = sink self0 ->
  (forall s, sink s = sink self0 -> sink (snd (c s)) = sink self0) ->
  (forall a s, sink s = sink self0 -> sink (snd (k a s)) = sink self0) ->
  sink (snd (bind c k self)) = sink self0.
Proof.
  intros Hs Hc Hk. unfold bind. specialize (Hc self Hs).
  destruct (c self) as [[a | e] s1]; cbn [snd] in *.
  - apply Hk. exact Hc.
  - exact Hc.
Qed.

Lemma try_keeps_sink {A} (c : M A) (h : exn -> M A) (self : RealTimePlot) :
  sink self = sink self0 ->
  (forall s, sink s = sink self0 -> sink (snd (c s)) = sink self0) ->
  (forall e s, sink s = sink self0 -> sink (snd (h e s)) = sink self0) ->
  sink (snd (try_except c h self)) = sink self0.
Proof.
  intros Hs Hc Hh. unfold try_except. specialize (Hc self Hs).
  destruct (c self) as [[a | e] s1]; cbn [snd] in *.
  - exact Hc.
  - apply Hh. exact Hc.
Qed.

Lemma ser_in_waiting_keeps_sink (s : RealTimePlot) :
  sink s = sink self0 -> sink (snd (ser_in_waiting s)) = sink self0.
Proof.
  intros Hs. unfold ser_in_waiting, the_ser, bind, get, fault, raise, ret.
  destruct (ser s) as [[inp [|]] |]; cbn; auto.
  destruct (hd false (faults s)); cbn; auto.
Qed.

Lemma ser_read_keeps_sink (size : nat) (s : RealTimePlot) :
  sink s = sink self0 -> sink (snd (ser_read size s)) = sink self0.
Proof.
  intros Hs. unfold ser_read, the_ser, bind, get, fault, raise, ret, modify.
  destruct (ser s) as [[inp [|]] |]; cbn; auto.
  destruct (hd false (faults s)); cbn; auto.
Qed.

(** Without a writer [save_to_csv] does nothing. *)
Lemma save_to_csv_without_writer (now sample : Z) (s : RealTimePlot) :
  csv_writer s = None -> save_to_csv now sample s = (Ok tt, s).
Proof.
  intros Hw. cbv beta iota delta [save_to_csv try_except bind get].
  rewrite Hw. reflexivity.
Qed.

Lemma sink_writer (s : RealTimePlot) :
  sink s = sink self0 -> csv_writer s = None.
Proof.
  intros Hs. unfold sink in Hs. injection Hs as _ Hw _ _. congruence.
Qed.

Lemma for_samples_keeps_sink (now : Z) (raw : list byte) (indices : list nat) :
  forall s, sink s = sink self0 ->
  sink (snd (for_samples now raw indices s)) = sink self0.
Proof.
  induction indices as [| i rest IH]; intros s Hs; cbn [for_samples].
  - exact Hs.
  - destruct (Nat.ltb (length raw) (i + 4)); [exact Hs |].
    unfold bind at 1. unfold unpack.
    destruct (Struct.unpack_i (slice raw i (i + 4))) as [v |];
      [| exact Hs].
    cbv beta iota delta [ret]. unfold bind at 1.
    cbv beta iota delta [modify]. unfold bind at 1.
    set (s1 := set_time_values _ (set_data _ s)).
    assert (Hs1 : sink s1 = sink self0) by exact Hs.
    rewrite (save_to_csv_without_writer now v s1 (sink_writer s1 Hs1)).
    apply IH. exact Hs1.
Qed.

Lemma update_plot_keeps_sink (t : Q) (now : Z) :
  sink (exec (update_plot t now) self0) = sink self0.
Proof.
  unfold exec, update_plot.
  apply try_keeps_sink; [reflexivity | | intros e s Hs; exact Hs].
  intros s Hs. apply bind_keeps_sink; [exact Hs | |].
  - clear s Hs. intros s Hs. unfold initial_filter.
    apply bind_keeps_sink; [exact Hs | intros s1 H1; exact H1 |].
    intros a s1 H1.
    destruct (ignore_initial_data a); [| exact H1].
    destruct (Qle_bool (initial_delay a) (t - start_time a)).
    + apply bind_keeps_sink; [exact H1 | intros s2 H2; exact H2 |].
      intros _ s2 H2.
      apply bind_keeps_sink; [exact H2 | intros s3 H3; exact H3 |].
      intros _ s3 H3. exact H3.
    + apply bind_keeps_sink;
        [exact H1 | apply ser_in_waiting_keeps_sink |].
      intros n s2 H2.
      apply bind_keeps_sink; [exact H2 | | intros _ s3 H3; exact H3].
      intros s3 H3. destruct (Nat.leb 4 n); [| exact H3].
      apply bind_keeps_sink;
        [exact H3 | apply ser_in_waiting_keeps_sink |].
      intros m s4 H4.
      apply bind_keeps_sink; [exact H4 | apply ser_read_keeps_sink |].
      intros _ s5 H5. exact H5.
  - clear s Hs. intros go_on s Hs. destruct go_on; [| exact Hs].
    apply bind_keeps_sink; [exact Hs | intros s1 H1; exact H1 |].
    intros a s1 H1. destruct (negb (ignore_initial_data a)); [| exact H1].
    apply bind_keeps_sink; [exact H1 | apply ser_in_waiting_keeps_sink |].
    intros n s2 H2. destruct (Nat.leb 4 n); [| exact H2].
    apply bind_keeps_sink; [exact H2 | apply ser_in_waiting_keeps_sink |].
    intros m s3 H3.
    apply bind_keeps_sink; [exact H3 | apply ser_read_keeps_sink |].
    intros raw s4 H4.
    apply bind_keeps_sink; [exact H4 | apply for_samples_keeps_sink |].
    intros _ s5 H5. exact H5.
Qed.

End NoWriter.

Section NoWriterClaim.

Import analisesensordepeso Scenario.

(** X18: when the first file could not be created there is no writer and no
    creation time, and it stays so: [update_plot], [save_to_csv] and
    [check_file_rotation] then create no file and write no row, whatever
    is received and however long the program runs. *)
Theorem nothing_written_without_writer
  (self : RealTimePlot) (t : Q) (now sample : Z) :
  csv_writer self = None ->
  file_start_time self = None ->
  sink (exec (update_plot t now) self) = sink self
  /\ sink (exec (save_to_csv now sample) self) = sink self
  /\ sink (exec (check_file_rotation now) self) = sink self.
Proof.
  intros Hw Hstart. split; [| split].
  - apply update_plot_keeps_sink. exact Hw.
  - unfold exec. rewrite save_to_csv_without_writer by exact Hw. reflexivity.
  - cbv beta iota delta [exec check_file_rotation bind get].
    destruct (ignore_initial_data self); [reflexivity |].
    rewrite Hstart. reflexivity.
Qed.

Lemma nothing_written_without_writer_witness :
  sink (exec (update_plot 4 4000000)
             (arrive (Struct.pack_i 7)
                     (exec (update_plot 3 3000000)
                           (exec (init 0 0) (blank [true])))))
  = (None, None, None, []).
Proof.
  refine (proj1 (nothing_written_without_writer
                   (arrive (Struct.pack_i 7)
                           (exec (update_plot 3 3000000)
                                 (exec (init 0 0) (blank [true]))))
                   4 4000000 0 _ _)).
  - reflexivity.
  - reflexivity.
Defined.

End NoWriterClaim.

(** * csvanalise.py *)

Section AdjacentFiles.

Import csvanalise.

Lemma index_nth (l : list String.string) (x : String.string) (i : nat) :
  index l x = Some i -> nth_error l i = Some x.
Proof.
  revert i. induction l as [| y l IH]; intros i H; simpl in H.
  - discriminate.
  - destruct (String.eqb_spec y x) as [-> | Hne].
    + injection H as <-. reflexivity.
    + destruct (index l x) as [j |]; simpl in H; [| discriminate].
      injection H as <-. simpl. apply IH. reflexivity.
Qed.

Lemma nth_index (l : list String.string) (x : String.string) (i : nat) :
  NoDup l -> nth_error l i = Some x -> index l x = Some i.
Proof.
  intros Hnd. revert i. induction Hnd as [| y l Hy Hnd IH]; intros i H.
  - destruct i; discriminate.
  - simpl. destruct i as [| i]; simpl in H.
    + injection H as ->. rewrite String.eqb_refl. reflexivity.
    + destruct (String.eqb_spec y x) as [-> | Hne].
      * exfalso. apply Hy. eapply nth_error_In. exact H.
      * rewrite (IH i H). reflexivity.
Qed.

(** X19: in a listing without repetition, going to the next file and asking
    for its neighbours gives the file one came from as the previous one,
    and likewise backwards. *)
Theorem adjacent_files_round_trip
  (csv_files : list String.string) (a b : String.string)
  (p n : option String.string) :
  NoDup csv_files ->
  (find_adjacent_files csv_files a = Some (p, Some b) ->
   exists n', find_adjacent_files csv_files b = Some (Some a, n'))
  /\ (find_adjacent_files csv_files a = Some (Some b, n) ->
      exists p', find_adjacent_files csv_files b = Some (p', Some a)).
Proof.
  intros Hnd. unfold find_adjacent_files.
  destruct csv_files as [| f0 rest] eqn:Hl; [split; discriminate |].
  rewrite <- Hl in *. clear Hl f0 rest.
  split; intros H.
  - destruct (index csv_files a) as [i |] eqn:Hi; [| discriminate].
    injection H as _ Hnext.
    destruct (Nat.ltb_spec i (length csv_files - 1)) as [Hlt | Hge];
      [| discriminate].
    rewrite (nth_index csv_files b (i + 1) Hnd Hnext).
    replace (Nat.ltb 0 (i + 1)) with true by (symmetry; apply Nat.ltb_lt; lia).
    replace (i + 1 - 1)%nat with i by lia.
    rewrite (index_nth csv_files a i Hi). eexists. reflexivity.
  - destruct (index csv_files a) as [i |] eqn:Hi; [| discriminate].
    injection H as Hprev _.
    destruct (Nat.ltb_spec 0 i) as [Hpos | Hzero]; [| discriminate].
    rewrite (nth_index csv_files b (i - 1) Hnd Hprev).
    pose proof (index_nth csv_files a i Hi) as Ha.
    assert (Hlen : (i < length csv_files)%nat)
      by (apply nth_error_Some; congruence).
    replace (Nat.ltb (i - 1) (length csv_files - 1)) with true
      by (symmetry; apply Nat.ltb_lt; lia).
    replace (i - 1 + 1)%nat with i by lia.
    rewrite Ha. eexists. reflexivity.
Qed.

Lemma adjacent_files_round_trip_witness :
  exists n', find_adjacent_files ["a.csv"; "b.csv"; "c.csv"]%string "b.csv"%string
             = Some (Some "a.csv"%string, n').
Proof.
  refine (proj1 (adjacent_files_round_trip
                   ["a.csv"; "b.csv"; "c.csv"]%string
                   "a.csv"%string "b.csv"%string None None _) _).
  - repeat constructor; simpl; intuition discriminate.
  - reflexivity.
Defined.

(** X20: the ends and the error of [find_adjacent_files]: the first file of a
    listing without repetition has no previous file and the last no next
    one, an empty listing gives no neighbours, and a current file that a
    non-empty listing does not contain raises. *)
Theorem adjacent_files_at_the_ends
  (csv_files : list String.string) (first last_ x : String.string) :
  NoDup csv_files ->
  (hd_error csv_files = Some first ->
   exists n', find_adjacent_files csv_files first = Some (None, n'))
  /\ (nth_error csv_files (length csv_files - 1) = Some last_ ->
      exists p', find_adjacent_files csv_files last_ = Some (p', None))
  /\ find_adjacent_files [] x = Some (None, None)
  /\ (csv_files <> [] -> ~ In x csv_files ->
      find_adjacent_files csv_files x = None).
Proof.
  intros Hnd. split; [| split; [| split]].
  - intros Hfirst. destruct csv_files as [| f rest]; [discriminate |].
    injection Hfirst as ->. unfold find_adjacent_files.
    cbn [index]. rewrite String.eqb_refl. eexists. reflexivity.
  - intros Hlast. unfold find_adjacent_files.
    destruct csv_files as [| f rest] eqn:Hl;
      [destruct (length (@nil String.string) - 1)%nat; discriminate |].
    rewrite <- Hl in *.
    rewrite (nth_index csv_files last_ _ Hnd Hlast).
    rewrite Nat.ltb_irrefl. eexists. reflexivity.
  - reflexivity.
  - intros Hne Hnot. unfold find_adjacent_files.
    destruct csv_files as [| f rest] eqn:Hl; [contradiction |].
    rewrite <- Hl in *.
    destruct (index csv_files x) as [i |] eqn:Hi; [| reflexivity].
    exfalso. apply Hnot. eapply nth_error_In. apply index_nth. exact Hi.
Qed.

Lemma adjacent_files_at_the_ends_witness :
  find_adjacent_files ["a.csv"; "b.csv"]%string "z.csv"%string = None.
Proof.
  refine (proj2 (proj2 (proj2 (adjacent_files_at_the_ends
            ["a.csv"; "b.csv"]%string "a.csv"%string "b.csv"%string
            "z.csv"%string _))) _ _).
  - repeat constructor; simpl; intuition discriminate.
  - discriminate.
  - simpl. intuition discriminate.
Defined.

End AdjacentFiles.

Section FilterLifted.

Import analisesensordepeso Scenario.
Local Open Scope py_scope.

Lemma bind_keeps {A B} (P : RealTimePlot -> Prop) (c : M A) (k : A -> M B)
  (self : RealTimePlot) :
  P self ->
  (forall s, P s -> P (snd (c s))) ->
  (forall a s, P s -> P (snd (k a s))) ->
  P (snd (bind c k self)).
Proof.
  intros Hs Hc Hk. unfold bind. specialize (Hc self Hs).
  destruct (c self) as [[a | e] s1]; cbn [snd] in *.
  - apply Hk. exact Hc.
  - exact Hc.
Qed.

Lemma save_to_csv_keeps_running (now sample : Z) (s : RealTimePlot) :
  ignore_initial_data s = false ->
  ignore_initial_data (snd (save_to_csv now sample s)) = false.
Proof.
  intros Hs. pose proof (save_to_csv_display now sample s) as H.
  unfold display in H. injection H as _ _ _ _ _ Hi. congruence.
Qed.

Lemma for_samples_keeps_running (now : Z) (raw : list byte)
  (indices : list nat) :
  forall s, ignore_initial_data s = false ->
  ignore_initial_data (snd (for_samples now raw indices s)) = false.
Proof.
  induction indices as [| i rest IH]; intros s Hs; cbn [for_samples].
  - exact Hs.
  - destruct (Nat.ltb (length raw) (i + 4)); [exact Hs |].
    apply (bind_keeps (fun s => ignore_initial_data s = false)); [exact Hs | |].
    + intros s1 H1. unfold unpack.
      destruct (Struct.unpack_i (slice raw i (i + 4))); exact H1.
    + intros v s1 H1.
      apply (bind_keeps (fun s => ignore_initial_data s = false));
        [exact H1 | intros s2 H2; exact H2 |].
      intros _ s2 H2.
      apply (bind_keeps (fun s => ignore_initial_data s = false));
        [exact H2 | apply save_to_csv_keeps_running |].
      intros _ s3 H3. apply IH. exact H3.
Qed.

Lemma ser_in_waiting_keeps_running (s : RealTimePlot) :
  ignore_initial_data s = false ->
  ignore_initial_data (snd (ser_in_waiting s)) = false.
Proof.
  intros Hs. destruct (ser_in_waiting_frame s) as (_ & _ & _ & Hi).
  congruence.
Qed.

Lemma ser_read_keeps_running (size : nat) (s : RealTimePlot) :
  ignore_initial_data s = false ->
  ignore_initial_data (snd (ser_read size s)) = false.
Proof.
  intros Hs. destruct (ser_read_frame size s) as (_ & _ & _ & Hi).
  congruence.
Qed.

(** X9: the initial filter goes one way: the first [update_plot] that runs
    [initial_delay] or more after the start lifts it, and once lifted no
    [update_plot] sets it again, whatever is received and whatever
    fails. *)
Theorem initial_filter_lifted_for_good
  (self : RealTimePlot) (t : Q) (now : Z) :
  (ignore_initial_data self = true ->
   initial_delay self <= t - start_time self ->
   ignore_initial_data (exec (update_plot t now) self) = false)
  /\ (ignore_initial_data self = false ->
      ignore_initial_data (exec (update_plot t now) self) = false).
Proof.
  assert (Hrun : forall s,
             ignore_initial_data s = false ->
             ignore_initial_data
               (snd ((self <- get ;;
                      if negb (ignore_initial_data self) then
                        n <- ser_in_waiting ;;
                        if Nat.leb 4 n then
                          m <- ser_in_waiting ;;
                          raw_data <- ser_read m ;;
                          for_samples now raw_data (range4 (length raw_data)) ;;
                          modify (fun self =>
                                    set_plotted (time_values self, data self) self)
                        else ret tt
                      else ret tt) s)) = false).
  { intros s Hs.
    apply (bind_keeps (fun s => ignore_initial_data s = false));
      [exact Hs | intros s1 H1; exact H1 |].
    intros a s1 H1. destruct (negb (ignore_initial_data a)); [| exact H1].
    apply (bind_keeps (fun s => ignore_initial_data s = false));
      [exact H1 | apply ser_in_waiting_keeps_running |].
    intros n s2 H2. destruct (Nat.leb 4 n); [| exact H2].
    apply (bind_keeps (fun s => ignore_initial_data s = false));
      [exact H2 | apply ser_in_waiting_keeps_running |].
    intros m s3 H3.
    apply (bind_keeps (fun s => ignore_initial_data s = false));
      [exact H3 | apply ser_read_keeps_running |].
    intros raw s4 H4.
    apply (bind_keeps (fun s => ignore_initial_data s = false));
      [exact H4 | apply for_samples_keeps_running |].
    intros _ s5 H5. exact H5. }
  split.
  - intros Hig Hdelay. apply Qle_bool_iff in Hdelay.
    unfold exec, update_plot, try_except.
    assert (Hfilter : initial_filter t self =
                      (Ok true,
                       set_status (FilterRemoved :: status self)
                                  (set_ignore_initial_data false self))).
    { cbv beta iota delta [initial_filter bind get]. rewrite Hig.
      cbv beta iota zeta. rewrite Hdelay. reflexivity. }
    rewrite (bind_ok _ _ _ _ _ Hfilter). cbv beta iota.
    set (s1 := set_status _ _).
    pose proof (Hrun s1 eq_refl) as H1.
    match goal with |- context [snd (let (r, self') := ?c s1 in _)] =>
      destruct (c s1) as [[[] | e] s2] end;
      cbn [snd] in *; cbn; auto.
  - intros Hig. unfold exec, update_plot, try_except.
    rewrite (bind_ok _ _ self self true (initial_filter_running t self Hig)).
    cbv beta iota. specialize (Hrun self Hig).
    match goal with |- context [snd (let (r, self') := ?c self in _)] =>
      destruct (c self) as [[[] | e] s2] end; cbn [snd] in *; cbn; auto.
Qed.

Lemma initial_filter_lifted_for_good_witness :
  ignore_initial_data (exec (update_plot 3 3000000) started) = false.
Proof.
  refine (proj1 (initial_filter_lifted_for_good started 3 3000000) _ _).
  - reflexivity.
  - vm_compute. discriminate.
Defined.

End FilterLifted.

Section WriterKept.

Import analisesensordepeso Scenario.

Lemma save_to_csv_keeps_writer_witness :
  csv_writer (exec (save_to_csv 5 42) (set_faults [true; false; true] running))
  <> None.
Proof.
  apply (save_to_csv_keeps_writer 5 42
           (set_faults [true; false; true] running)).
  vm_compute. discriminate.
Defined.

End WriterKept.

(** * Invariants of the callbacks *)

Section Keeps.

Import analisesensordepeso Scenario.
Local Open Scope py_scope.

(** A property of the state that the assignments made by [update_plot]
    and the calls of [save_to_csv] keep is kept by [update_plot]. *)
Variable P : RealTimePlot -> Prop.
Hypothesis P_faults : forall v s, P s -> P (set_faults v s).
Hypothesis P_ser : forall v s, P s -> P (set_ser v s).
Hypothesis P_status : forall v s, P s -> P (set_status v s).
Hypothesis P_ignore : forall v s, P s -> P (set_ignore_initial_data v s).
Hypothesis P_plotted : forall v s, P s -> P (set_plotted v s).
Hypothesis P_push :
  forall v s, P s ->
  P (set_time_values
       (snd (push (buffer_size s) (data s, time_values s) v))
       (set_data (fst (push (buffer_size s) (data s, time_values s) v)) s)).
Hypothesis P_save : forall now v s, P s -> P (snd (save_to_csv now v s)).

Lemma ser_in_waiting_keeps (s : RealTimePlot) :
  P s -> P (snd (ser_in_waiting s)).
Proof.
  intros Hs. unfold ser_in_waiting, the_ser, bind, get, fault, raise, ret.
  destruct (ser s) as [[inp [|]] |]; cbn [snd negb is_open]; auto.
  destruct (hd false (faults s)); cbn [snd]; auto.
Qed.

Lemma ser_read_keeps (size : nat) (s : RealTimePlot) :
  P s -> P (snd (ser_read size s)).
Proof.
  intros Hs. unfold ser_read, the_ser, bind, get, fault, raise, ret, modify.
  destruct (ser s) as [[inp [|]] |]; cbn [snd negb is_open]; auto.
  destruct (hd false (faults s)); cbn [snd]; auto.
Qed.

Lemma for_samples_keeps (now : Z) (raw : list byte) (indices : list nat) :
  forall s, P s -> P (snd (for_samples now raw indices s)).
Proof.
  induction indices as [| i rest IH]; intros s Hs; cbn [for_samples].
  - exact Hs.
  - destruct (Nat.ltb (length raw) (i + 4)); [exact Hs |].
    apply (bind_keeps P); [exact Hs | |].
    + intros s1 H1. unfold unpack.
      destruct (Struct.unpack_i (slice raw i (i + 4))); exact H1.
    + intros v s1 H1.
      apply (bind_keeps P); [exact H1 | intros s2 H2; apply P_push; exact H2 |].
      intros _ s2 H2.
      apply (bind_keeps P); [exact H2 | apply P_save |].
      intros _ s3 H3. apply IH. exact H3.
Qed.

Lemma initial_filter_keeps (t : Q) (s : RealTimePlot) :
  P s -> P (snd (initial_filter t s)).
Proof.
  intros Hs. unfold initial_filter.
  apply (bind_keeps P); [exact Hs | intros s1 H1; exact H1 |].
  intros a s1 H1. destruct (ignore_initial_data a); [| exact H1].
  destruct (Qle_bool (initial_delay a) (t - start_time a)).
  - apply (bind_keeps P);
      [exact H1 | intros s2 H2; apply P_ignore; exact H2 |].
    intros _ s2 H2.
    apply (bind_keeps P);
      [exact H2 | intros s3 H3; apply P_status; exact H3 |].
    intros _ s3 H3. exact H3.
  - apply (bind_keeps P); [exact H1 | apply ser_in_waiting_keeps |].
    intros n s2 H2.
    apply (bind_keeps P); [exact H2 | | intros _ s3 H3; exact H3].
    intros s3 H3. destruct (Nat.leb 4 n); [| exact H3].
    apply (bind_keeps P); [exact H3 | apply ser_in_waiting_keeps |].
    intros m s4 H4.
    apply (bind_keeps P); [exact H4 | apply ser_read_keeps |].
    intros _ s5 H5. exact H5.
Qed.

Lemma update_plot_keeps (t : Q) (now : Z) (s : RealTimePlot) :
  P s -> P (exec (update_plot t now) s).
Proof.
  intros Hs. unfold exec, update_plot, try_except.
  match goal with |- P (snd (let (r, self') := ?c s in _)) =>
    assert (Hc : P (snd (c s))) end.
  { apply (bind_keeps P); [exact Hs | apply initial_filter_keeps |].
    intros go_on s1 H1. destruct go_on; [| exact H1].
    apply (bind_keeps P); [exact H1 | intros s2 H2; exact H2 |].
    intros a s2 H2. destruct (negb (ignore_initial_data a)); [| exact H2].
    apply (bind_keeps P); [exact H2 | apply ser_in_waiting_keeps |].
    intros n s3 H3. destruct (Nat.leb 4 n); [| exact H3].
    apply (bind_keeps P); [exact H3 | apply ser_in_waiting_keeps |].
    intros m s4 H4.
    apply (bind_keeps P); [exact H4 | apply ser_read_keeps |].
    intros raw s5 H5.
    apply (bind_keeps P); [exact H5 | apply for_samples_keeps |].
    intros _ s6 H6. apply P_plotted. exact H6. }
  match goal with |- P (snd (let (r, self') := ?c s in _)) =>
    destruct (c s) as [[[] | e] s1] end; cbn [snd] in *.
  - exact Hc.
  - apply P_status. exact Hc.
Qed.

End Keeps.

Section DequeInvariant.

Import analisesensordepeso Scenario.

Lemma push_in_step (cap : nat) (d : list Z) (tv : list nat) (v : Z) :
  length d = length tv -> (length d <= cap)%nat ->
  length (fst (push cap (d, tv) v)) = length (snd (push cap (d, tv) v))
  /\ (length (fst (push cap (d, tv) v)) <= cap)%nat.
Proof.
  intros Heq Hle. unfold push. cbn [fst snd].
  rewrite !append_length by lia. lia.
Qed.

(** X21: [update_plot] keeps the two deques in step: if [data] and
    [time_values] have the same length, at most [buffer_size], before the
    call, they do after it, whatever is received and whatever fails. *)
Theorem update_plot_keeps_deques_in_step
  (self : RealTimePlot) (t : Q) (now : Z) :
  deques_in_step self -> deques_in_step (exec (update_plot t now) self).
Proof.
  apply update_plot_keeps; unfold deques_in_step; try (intros v s H; exact H).
  - intros v s [Heq Hle]. cbn [data time_values buffer_size set_time_values
                               set_data].
    apply push_in_step; assumption.
  - intros now' v s H. pose proof (save_to_csv_display now' v s) as Hd.
    unfold display in Hd. injection Hd as Hb Hda Ht _ _ _.
    rewrite Hb, Hda, Ht. exact H.
Qed.

Lemma update_plot_keeps_deques_in_step_witness :
  deques_in_step
    (exec (update_plot 4 4000000)
          (arrive (Struct.pack_i 1 ++ Struct.pack_i 2) running)).
Proof.
  apply (update_plot_keeps_deques_in_step
           (arrive (Struct.pack_i 1 ++ Struct.pack_i 2) running) 4 4000000).
  split; [reflexivity | simpl; lia].
Defined.

End DequeInvariant.

Section OpenFiles.

Import analisesensordepeso Scenario.
Local Open Scope py_scope.

Lemma list_update_other {A} (l : list A) (h i : nat) (x : A) :
  i <> h -> nth_error (list_update l h x) i = nth_error l i.
Proof.
  revert h i. induction l as [| y l IH]; intros [| h] [| i] Hne; simpl;
    try reflexivity; try congruence.
  apply IH. congruence.
Qed.

Lemma list_update_at {A} (l : list A) (h : nat) (x y : A) :
  nth_error (list_update l h x) h = Some y -> y = x.
Proof.
  revert h. induction l as [| z l IH]; intros [| h] H; simpl in H;
    try discriminate.
  - congruence.
  - eapply IH. exact H.
Qed.

(** With the open files being at most the current one, no file is open
    once the current one is closed. *)
Lemma file_close_closes (h : nat) (s : RealTimePlot) :
  only_current_open s -> csv_file s = Some h ->
  only_current_open (snd (file_close h s))
  /\ (fst (file_close h s) = Ok tt ->
      forall i f, nth_error (files (snd (file_close h s))) i = Some f ->
                  closed f = true).
Proof.
  intros Inv Hcsv. unfold file_close, bind, get, fault, raise, ret, modify.
  destruct (nth_error (files s) h) as [f |] eqn:Hf; cbn [fst snd].
  2:{ split; [exact Inv | discriminate]. }
  destruct (closed f) eqn:Hcl; cbn [fst snd].
  - split; [exact Inv |]. intros _ i g Hg.
    destruct (closed g) eqn:Hcg; [reflexivity |].
    pose proof (Inv i g Hg Hcg) as Hi. rewrite Hcsv in Hi.
    injection Hi as <-. congruence.
  - destruct (hd false (faults s)); cbn [fst snd].
    + split; [| discriminate]. intros i g Hg Hcg. exact (Inv i g Hg Hcg).
    + assert (Hall : forall i g,
                 nth_error
                   (list_update (files s) h
                      (mkFile (filename f) (persisted f ++ pending f) [] true))
                   i = Some g -> closed g = true).
      { intros i g Hg. destruct (Nat.eq_dec i h) as [-> | Hne].
        - apply list_update_at in Hg. subst g. reflexivity.
        - rewrite list_update_other in Hg by exact Hne.
          destruct (closed g) eqn:Hcg; [reflexivity |].
          pose proof (Inv i g Hg Hcg) as Hi. rewrite Hcsv in Hi.
          injection Hi as <-. contradiction. }
      split.
      * intros i g Hg Hcg. cbn in Hg. rewrite (Hall i g Hg) in Hcg.
        discriminate.
      * intros _ i g Hg. cbn in Hg. exact (Hall i g Hg).
Qed.

Lemma writerow_keeps_open (h : nat) (r : row) (s : RealTimePlot) :
  only_current_open s -> only_current_open (snd (writerow h r s)).
Proof.
  intros Inv. unfold writerow, bind, get, fault, raise, ret, modify.
  destruct (nth_error (files s) h) as [f |] eqn:Hf; cbn [snd]; [| exact Inv].
  destruct (closed f) eqn:Hcl; cbn [snd]; [exact Inv |].
  destruct (hd false (faults s)); cbn [snd].
  - intros i g Hg Hcg. exact (Inv i g Hg Hcg).
  - intros i g Hg Hcg. cbn in Hg. cbn [csv_file set_files set_faults].
    destruct (Nat.eq_dec i h) as [-> | Hne].
    + exact (Inv h f Hf Hcl).
    + rewrite list_update_other in Hg by exact Hne. exact (Inv i g Hg Hcg).
Qed.

Lemma truncate_closed (name : Z) (l : list File) (i : nat) (g : File) :
  nth_error (map (truncate name) l) i = Some g ->
  exists g0, nth_error l i = Some g0 /\ closed g = closed g0.
Proof.
  rewrite nth_error_map. destruct (nth_error l i) as [g0 |]; simpl;
    [| discriminate].
  intros H. injection H as <-. exists g0. split; [reflexivity |].
  unfold truncate. destruct (Z.eqb (filename g0) name); reflexivity.
Qed.

(** [init_csv_file] keeps the open files at most the current one,
    whatever fails. *)
Lemma init_csv_file_keeps_open (now : Z) (s : RealTimePlot) :
  only_current_open s -> only_current_open (snd (init_csv_file now s)).
Proof.
  intros Inv.
  cbv beta iota delta [init_csv_file try_except bind get].
  assert (H1 : only_current_open
                 (snd (match csv_file s with
                       | Some h => file_close h
                       | None => ret tt
                       end s))
               /\ (fst (match csv_file s with
                        | Some h => file_close h
                        | None => ret tt
                        end s) = Ok tt ->
                   forall i f,
                     nth_error
                       (files (snd (match csv_file s with
                                    | Some h => file_close h
                                    | None => ret tt
                                    end s))) i = Some f ->
                     closed f = true)).
  { destruct (csv_file s) as [h |] eqn:Hcsv.
    - apply file_close_closes; assumption.
    - split; [exact Inv |]. intros _ i f Hf. cbn in Hf.
      destruct (closed f) eqn:Hcl; [reflexivity |].
      pose proof (Inv i f Hf Hcl) as Hi. congruence. }
  destruct (match csv_file s with
            | Some h => file_close h
            | None => ret tt
            end s) as [[[] | e1] s1]; cbn [fst snd] in H1.
  2:{ destruct H1 as [Inv1 _]. cbn. intros i f Hf Hcl.
      exact (Inv1 i f Hf Hcl). }
  destruct H1 as [_ Hall]. specialize (Hall eq_refl).
  unfold open_w at 1.
  cbv beta iota delta [bind get fault raise ret modify].
  destruct (hd false (faults s1)); cbn [fst snd].
  { cbn. intros i f Hf Hcl. rewrite (Hall i f Hf) in Hcl. discriminate. }
  match goal with |- context [writerow ?h Header ?s2] =>
    assert (Inv2 : only_current_open s2);
    [| pose proof (writerow_keeps_open h Header s2 Inv2) as Inv3;
       destruct (writerow h Header s2) as [[[] | e3] s3] ]
  end.
  - intros i g Hg Hcg. cbn in Hg. cbn.
    destruct (Nat.lt_ge_cases i (length (files s1))) as [Hlt | Hge].
    + rewrite nth_error_app1 in Hg by (rewrite length_map; exact Hlt).
      apply truncate_closed in Hg. destruct Hg as (g0 & Hg0 & Hc).
      rewrite Hc, (Hall i g0 Hg0) in Hcg. discriminate.
    + destruct (Nat.eq_dec i (length (files s1))) as [-> | Hne];
        [reflexivity |].
      rewrite nth_error_app2 in Hg by (rewrite length_map; exact Hge).
      rewrite length_map in Hg.
      destruct (i - length (files s1))%nat as [| [| k]] eqn:Hk;
        simpl in Hg; try discriminate. lia.
  - cbn [snd] in Inv3. cbn [fst snd modify update_status].
    intros i f Hf Hcl. exact (Inv3 i f Hf Hcl).
  - cbn [snd] in Inv3.
    cbv beta iota delta [show_error bind modify update_status]. cbn [snd].
    intros i f Hf Hcl. exact (Inv3 i f Hf Hcl).
Qed.

Lemma save_to_csv_keeps_open (now sample : Z) (s : RealTimePlot) :
  only_current_open s -> only_current_open (snd (save_to_csv now sample s)).
Proof.
  intros Inv. rewrite save_to_csv_recovery.
  cbv beta iota delta [try_except bind get].
  destruct (csv_writer s) as [h |]; [| exact Inv].
  pose proof (writerow_keeps_open h (DataRow now sample) s Inv) as H1.
  destruct (writerow h (DataRow now sample) s) as [[[] | e] s1];
    cbn [snd] in H1; [exact H1 |].
  cbv beta iota delta [show_error bind modify update_status].
  apply init_csv_file_keeps_open.
  intros i f Hf Hcl. exact (H1 i f Hf Hcl).
Qed.

Lemma close_event_keeps_open (s : RealTimePlot) :
  only_current_open s -> only_current_open (exec closeEvent s).
Proof.
  intros Inv. unfold exec, closeEvent, try_except.
  match goal with |- only_current_open (snd (let (r, self') := ?c s in _)) =>
    assert (Hc : only_current_open (snd (c s))) end.
  { assert (Hstop : forall timer set,
               (forall v s0, only_current_open s0 -> only_current_open (set v s0)) ->
               forall s0, only_current_open s0 ->
                          only_current_open (snd (stop timer set s0))).
    { intros timer set Hset s0 H0. unfold stop, bind, get, raise, modify.
      destruct (timer s0); cbn [snd]; [apply Hset |]; exact H0. }
    apply (bind_keeps only_current_open); [exact Inv | |].
    { apply Hstop. intros v s0 H0 i f Hf Hcl. exact (H0 i f Hf Hcl). }
    intros _ s1 H1.
    apply (bind_keeps only_current_open); [exact H1 | |].
    { apply Hstop. intros v s0 H0 i f Hf Hcl. exact (H0 i f Hf Hcl). }
    intros _ s2 H2.
    apply (bind_keeps only_current_open); [exact H2 | |].
    { apply Hstop. intros v s0 H0 i f Hf Hcl. exact (H0 i f Hf Hcl). }
    intros _ s3 H3.
    apply (bind_keeps only_current_open); [exact H3 | intros s4 H4; exact H4 |].
    intros a s4 H4.
    apply (bind_keeps only_current_open); [exact H4 | |].
    { intros s5 H5. destruct (ser a) as [port |]; [| exact H5].
      destruct (is_open port); [| exact H5].
      unfold ser_close, the_ser, bind, get, fault, raise, ret, modify.
      destruct (ser s5); cbn [snd]; [| exact H5].
      destruct (hd false (faults s5)); cbn [snd];
        intros i f Hf Hcl; exact (H5 i f Hf Hcl). }
    intros _ s5 H5.
    apply (bind_keeps only_current_open); [exact H5 | intros s6 H6; exact H6 |].
    intros b s6 H6.
    destruct (csv_file b) as [h |]; [| exact H6].
    unfold file_close, bind, get, fault, raise, ret, modify.
    destruct (nth_error (files s6) h) as [f |] eqn:Hf; cbn [snd]; [| exact H6].
    destruct (closed f) eqn:Hcl; cbn [snd]; [exact H6 |].
    destruct (hd false (faults s6)); cbn [snd].
    - intros i g Hg Hcg. exact (H6 i g Hg Hcg).
    - intros i g Hg Hcg. cbn in Hg. cbn.
      destruct (Nat.eq_dec i h) as [-> | Hne].
      + apply list_update_at in Hg. subst g. discriminate.
      + rewrite list_update_other in Hg by exact Hne.
        exact (H6 i g Hg Hcg). }
  match goal with |- only_current_open (snd (let (r, self') := ?c s in _)) =>
    destruct (c s) as [[[] | e] s1] end; cbn [snd] in *; exact Hc.
Qed.

(** X22: no file object is left open behind: if every open file object
    is the one [csv_file] refers to, this is still so after
    [update_plot], [save_to_csv], [init_csv_file], [check_file_rotation]
    and [closeEvent], whatever fails; so at most one file is open at any
    time. *)
Theorem at_most_one_file_open
  (self : RealTimePlot) (t : Q) (now sample : Z) :
  only_current_open self ->
  only_current_open (exec (update_plot t now) self)
  /\ only_current_open (exec (save_to_csv now sample) self)
  /\ only_current_open (exec (init_csv_file now) self)
  /\ only_current_open (exec (check_file_rotation now) self)
  /\ only_current_open (exec closeEvent self)
  /\ (forall i j f g,
        nth_error (files self) i = Some f -> closed f = false ->
        nth_error (files self) j = Some g -> closed g = false ->
        i = j).
Proof.
  intros Inv. split; [| split; [| split; [| split; [| split]]]].
  - apply update_plot_keeps; try exact Inv;
      try (intros v s H i f Hf Hcl; exact (H i f Hf Hcl)).
    intros now' v s H. apply save_to_csv_keeps_open. exact H.
  - apply save_to_csv_keeps_open. exact Inv.
  - apply init_csv_file_keeps_open. exact Inv.
  - cbv beta iota delta [exec check_file_rotation bind get].
    destruct (ignore_initial_data self); [exact Inv |].
    unfold try_except.
    destruct (file_start_time self) as [started |]; [| exact Inv].
    destruct (Z.leb (file_duration self) (now - started)); [| exact Inv].
    pose proof (init_csv_file_keeps_open now self Inv) as H.
    destruct (init_csv_file now self) as [[[] | e] s1]; exact H.
  - apply close_event_keeps_open. exact Inv.
  - intros i j f g Hf Hcf Hg Hcg.
    pose proof (Inv i f Hf Hcf) as Hi. pose proof (Inv j g Hg Hcg) as Hj.
    congruence.
Qed.

Lemma at_most_one_file_open_witness :
  only_current_open
    (exec (check_file_rotation 1800000000) (exec (save_to_csv 5 42) running)).
Proof.
  refine (proj1 (proj2 (proj2 (proj2 (at_most_one_file_open
            (exec (save_to_csv 5 42) running) 0 1800000000 0 _))))).
  intros [| [| i]] f Hf Hcl; simpl in Hf; try discriminate. reflexivity.
Defined.

End OpenFiles.

Section FullBuffer.

Import analisesensordepeso Scenario.

(** The io layer at work: with the header, 263 records of 31 bytes make
    8170 buffered bytes and the 264th makes 8201; with the flush script
    asking for 259 lines at that write, 259 lines are on the disk while
    the file is still open and 6 are buffered; one write earlier nothing
    is on the disk. *)
Lemma full_buffer_reaches_disk :
  let writes := repeat 42%Z 264 in
  let s := fold_left (fun s v => exec (save_to_csv 5 v) s) writes
             (set_flushes (repeat 0%nat 263 ++ [259%nat]) running) in
  let s' := fold_left (fun s v => exec (save_to_csv 5 v) s) (repeat 42%Z 263)
              (set_flushes (repeat 259%nat 263) running) in
  map (fun f => (length (persisted f), length (pending f), closed f)) (files s)
  = [(259%nat, 6%nat, false)]
  /\ map (fun f => (length (persisted f), length (pending f), closed f))
         (files s')
     = [(0%nat, 264%nat, false)].
Proof. vm_compute. split; reflexivity. Qed.

End FullBuffer.
